(** * greener-reporter-junitxml: a shallow embedding of [main.go]

    The reporter opens a session on a Greener ingress endpoint, reads a
    JUnit XML report and posts one record per test case.

    Go strings are byte sequences and are modelled by [string] (one [ascii]
    per byte); an [error] is the message its [Error()] returns, nil is
    [None]; a slice is a list and a nil pointer is [None].  The functions of
    [strings], [strconv] and [encoding/xml] that decide what [main.go]
    computes are modelled after the Go library; JSON, HTTP and the file
    system are answers of an environment, and a run is a function from the
    trace of events so far to its result and the extended trace. *)

From Stdlib Require Import List String Ascii ZArith NArith Lia Bool.
From Stdlib Require Import DecimalString.
Import ListNotations.

Open Scope string_scope.

(** ** Results of fallible calls: Go's [(value, err)] pairs *)

Inductive result (A : Type) : Type :=
| Ok (a : A)
| Err (msg : string).
Arguments Ok {A} a.
Arguments Err {A} msg.

(** ** The part of Go's [strings] package that [main.go] calls *)

Module strings.

(** [strings.HasPrefix(s, prefix)]. *)
Definition HasPrefix (s pre : string) : bool := String.prefix pre s.

(** [s[n:]] for [n <= len(s)]. *)
Fixpoint drop (n : nat) (s : string) : string :=
  match n, s with
  | O, _ => s
  | S n', String _ s' => drop n' s'
  | S _, EmptyString => EmptyString
  end.

(** [s[:n]] for [n <= len(s)]. *)
Fixpoint take (n : nat) (s : string) : string :=
  match n, s with
  | O, _ => EmptyString
  | S n', String c s' => String c (take n' s')
  | S _, EmptyString => EmptyString
  end.

(** [strings.HasSuffix]:
    [len(s) >= len(suffix) && s[len(s)-len(suffix):] == suffix]. *)
Definition HasSuffix (s suffix : string) : bool :=
  (length suffix <=? length s)%nat
  && (drop (length s - length suffix) s =? suffix).

(** [strings.TrimSuffix]: the suffix is removed once, when present. *)
Definition TrimSuffix (s suffix : string) : string :=
  if HasSuffix s suffix then take (length s - length suffix) s else s.

(** [strings.Index]: byte offset of the first occurrence, [None] for -1. *)
Fixpoint Index (s substr : string) : option nat :=
  if HasPrefix s substr then Some O
  else match s with
       | EmptyString => None
       | String _ s' => option_map S (Index s' substr)
       end.

(** [strings.Cut]. *)
Definition Cut (s sep : string) : string * string * bool :=
  match Index s sep with
  | Some i => (take i s, drop (i + length sep) s, true)
  | None => (s, EmptyString, false)
  end.

(** The loop of [strings.SplitSeq] for a non-empty separator: the fragments
    before each occurrence of [sep], then the rest.  Every round removes at
    least [len(sep)] bytes, so [fuel] above [len(s)] is never used up. *)
Fixpoint splitLoop (fuel : nat) (s sep : string) : list string :=
  match fuel with
  | O => [s]
  | S fuel' =>
      match Index s sep with
      | None => [s]
      | Some i => take i s :: splitLoop fuel' (drop (i + length sep) s) sep
      end
  end.

(** [strings.SplitSeq(s, sep)], as the list of the strings it yields. *)
Definition SplitSeq (s sep : string) : list string :=
  splitLoop (S (length s)) s sep.

(** [asciiSpace] of package [strings]: tab, LF, VT, FF, CR and space. *)
Definition asciiSpace (c : ascii) : bool :=
  let n := N_of_ascii c in
  ((9 <=? n) && (n <=? 13) || (n =? 32))%N.

(** The UTF-8 encodings of the other runes of [unicode.IsSpace]:
    U+0085 and U+00A0 take two bytes. *)
Definition space2 (b0 b1 : ascii) : bool :=
  let '(n0, n1) := (N_of_ascii b0, N_of_ascii b1) in
  ((n0 =? 0xC2) && ((n1 =? 0x85) || (n1 =? 0xA0)))%N.

(** U+1680, U+2000..U+200A, U+2028, U+2029, U+202F, U+205F and U+3000 take
    three bytes. *)
Definition space3 (b0 b1 b2 : ascii) : bool :=
  let '(n0, n1, n2) := (N_of_ascii b0, N_of_ascii b1, N_of_ascii b2) in
  ((n0 =? 0xE1) && (n1 =? 0x9A) && (n2 =? 0x80)
   || (n0 =? 0xE2) && (n1 =? 0x80)
      && ((0x80 <=? n2) && (n2 <=? 0x8A) || (n2 =? 0xA8) || (n2 =? 0xA9)
          || (n2 =? 0xAF))
   || (n0 =? 0xE2) && (n1 =? 0x81) && (n2 =? 0x9F)
   || (n0 =? 0xE3) && (n1 =? 0x80) && (n2 =? 0x80))%N.

(** The loop of [strings.TrimLeftFunc(s, unicode.IsSpace)]: white-space
    runes are removed from the front until a byte starts something else;
    [two] and [three] recognise the encodings of two and of three bytes. *)
Fixpoint trimLeft (two : ascii -> ascii -> bool)
  (three : ascii -> ascii -> ascii -> bool) (s : string) : string :=
  match s with
  | EmptyString => EmptyString
  | String b0 s1 =>
      if asciiSpace b0 then trimLeft two three s1
      else match s1 with
           | EmptyString => s
           | String b1 s2 =>
               if two b0 b1 then trimLeft two three s2
               else match s2 with
                    | EmptyString => s
                    | String b2 s3 =>
                        if three b0 b1 b2 then trimLeft two three s3 else s
                    end
           end
  end.

Definition trimLeftSpace (s : string) : string := trimLeft space2 space3 s.

(** The bytes of [s] in reverse order. *)
Fixpoint reverse (s : string) : string :=
  match s with
  | EmptyString => EmptyString
  | String c s' => reverse s' ++ String c EmptyString
  end.

(** The encodings as they are met from the end of a string, last byte
    first. *)
Definition space2Rev (b1 b0 : ascii) : bool := space2 b0 b1.

Definition space3Rev (b2 b1 b0 : ascii) : bool := space3 b0 b1 b2.

(** [strings.TrimRightFunc(s, unicode.IsSpace)]. *)
Definition trimRightSpace (s : string) : string :=
  reverse (trimLeft space2Rev space3Rev (reverse s)).

(** [strings.TrimSpace]: leading and trailing Unicode white space removed.
    Its ASCII fast path gives the same string as the general path. *)
Definition TrimSpace (s : string) : string :=
  trimRightSpace (trimLeftSpace s).

(** A string that starts with a white-space rune, for encodings [two] and
    [three]. *)
Definition leading (two : ascii -> ascii -> bool)
  (three : ascii -> ascii -> ascii -> bool) (s : string) : bool :=
  match s with
  | EmptyString => false
  | String b0 s1 =>
      asciiSpace b0
      || match s1 with
         | EmptyString => false
         | String b1 s2 =>
             two b0 b1
             || match s2 with
                | EmptyString => false
                | String b2 _ => three b0 b1 b2
                end
         end
  end.

Definition leadingSpace (s : string) : bool := leading space2 space3 s.

Definition trailingSpace (s : string) : bool :=
  leading space2Rev space3Rev (reverse s).

(** A string of white-space runes only. *)
Inductive Runs (two : ascii -> ascii -> bool)
  (three : ascii -> ascii -> ascii -> bool) : string -> Prop :=
| Runs_nil : Runs two three EmptyString
| Runs_one b0 s :
    asciiSpace b0 = true -> Runs two three s -> Runs two three (String b0 s)
| Runs_two b0 b1 s :
    two b0 b1 = true -> Runs two three s ->
    Runs two three (String b0 (String b1 s))
| Runs_three b0 b1 b2 s :
    three b0 b1 b2 = true -> Runs two three s ->
    Runs two three (String b0 (String b1 (String b2 s))).

Definition Spaces (s : string) : Prop := Runs space2 space3 s.

End strings.

(** ** The report model: the structs [xml.Unmarshal] fills *)

Module Failure.
Record t : Type := mk {
  Message : string;
  Type_ : string;
  Content : string
}.
End Failure.

Module Error.
Record t : Type := mk {
  Message : string;
  Type_ : string;
  Content : string
}.
End Error.

Module Skipped.
Record t : Type := mk {
  Message : string
}.
End Skipped.

(** A nil pointer is [None]. *)
Module TestCase.
Record t : Type := mk {
  Name : string;
  Classname : string;
  Time : string;
  Failure : option Failure.t;
  Error : option Error.t;
  Skipped : option Skipped.t
}.
End TestCase.

Module TestSuite.
Record t : Type := mk {
  Name : string;
  Tests : Z;
  Failures : Z;
  Errors : Z;
  Skipped : Z;
  Time : string;
  Timestamp : string;
  TestCases : list TestCase.t
}.
End TestSuite.

Module TestSuites.
Record t : Type := mk {
  XMLName : string;
  TestSuites : list TestSuite.t
}.
End TestSuites.

(** ** [strconv.ParseInt] in base 10, as [encoding/xml] calls it *)

Module strconv.

Inductive NumError : Type :=
| ErrSyntax
| ErrRange.

(** The value of a decimal digit byte. *)
Definition digit (c : ascii) : option Z :=
  let n := N_of_ascii c in
  if ((48 <=? n) && (n <=? 57))%N then Some (Z.of_N n - 48)%Z else None.

(** The digit loop of [ParseUint(s, 10, bitSize)] from the value [n] read so
    far: a byte that is no digit is a syntax error, a value above
    [2^bitSize - 1] a range error, whichever the loop meets first. *)
Fixpoint uintLoop (bitSize : Z) (s : string) (n : Z) : Z + NumError :=
  match s with
  | EmptyString => inl n
  | String c s' =>
      match digit c with
      | None => inr ErrSyntax
      | Some d =>
          if ((2 ^ 64 - 1) / 10 + 1 <=? n)%Z then inr ErrRange
          else
            let n1 := (n * 10 + d)%Z in
            if (2 ^ bitSize - 1 <? n1)%Z then inr ErrRange
            else uintLoop bitSize s' n1
      end
  end.

Definition ParseUint (s : string) (bitSize : Z) : Z + NumError :=
  if s =? EmptyString then inr ErrSyntax else uintLoop bitSize s 0%Z.

(** [ParseInt(s, 10, bitSize)]: an optional sign, then [ParseUint], then the
    signed range. *)
Definition ParseInt (s : string) (bitSize : Z) : Z + NumError :=
  match s with
  | EmptyString => inr ErrSyntax
  | String c s' =>
      let '(neg, digits) :=
        if (c =? "+")%char then (false, s')
        else if (c =? "-")%char then (true, s')
        else (false, s) in
      match ParseUint digits bitSize with
      | inr ErrSyntax => inr ErrSyntax
      | inr ErrRange => inr ErrRange
      | inl un =>
          let cutoff := (2 ^ (bitSize - 1))%Z in
          if negb neg && (cutoff <=? un)%Z then inr ErrRange
          else if neg && (cutoff <? un)%Z then inr ErrRange
          else inl (if neg then (- un)%Z else un)
      end
  end.

(** The text of a [NumError]; [quote] is [strconv.Quote]. *)
Definition errorText (quote : string -> string) (num : string) (e : NumError)
  : string :=
  "strconv.ParseInt: parsing " ++ quote num ++ ": "
  ++ match e with
     | ErrSyntax => "invalid syntax"
     | ErrRange => "value out of range"
     end.

End strconv.

(** ** [encoding/xml]: filling [TestSuites] from the element read *)

Module xml.

(** An attribute of a start tag, by its local name. *)
Record Attr : Type := mkAttr {
  AttrName : string;
  AttrValue : string
}.

(** What the decoder reads between a start tag and its end tag: child
    elements and character data (entities and CDATA sections resolved).
    Name spaces are not modelled: names are local names. *)
#[warnings="-register-all"]
Inductive Node : Type :=
| Element (name : string) (attrs : list Attr) (children : list Node)
| CharData (text : string).

(** The size of Go's [int] on the 64-bit targets. *)
Definition intBits : Z := 64.

(** [copyValue] to an [int] field: empty text gives 0, other text goes
    through [strings.TrimSpace] and [strconv.ParseInt]. *)
Definition copyInt (quote : string -> string) (src : string) : result Z :=
  if src =? EmptyString then Ok 0%Z
  else
    let num := strings.TrimSpace src in
    match strconv.ParseInt num intBits with
    | inl n => Ok n
    | inr e => Err (strconv.errorText quote num e)
    end.

(** The character data directly inside an element, as the [chardata] field
    receives it. *)
Fixpoint charData (children : list Node) : string :=
  match children with
  | [] => EmptyString
  | CharData text :: rest => text ++ charData rest
  | Element _ _ _ :: rest => charData rest
  end.

(** The attribute loop on a struct whose attribute fields are all strings:
    each attribute is stored in the field of its name, later ones over
    earlier ones. *)
Definition failureAttr (v : Failure.t) (a : Attr) : Failure.t :=
  if AttrName a =? "message" then
    {| Failure.Message := AttrValue a; Failure.Type_ := Failure.Type_ v;
       Failure.Content := Failure.Content v |}
  else if AttrName a =? "type" then
    {| Failure.Message := Failure.Message v; Failure.Type_ := AttrValue a;
       Failure.Content := Failure.Content v |}
  else v.

Definition errorAttr (v : Error.t) (a : Attr) : Error.t :=
  if AttrName a =? "message" then
    {| Error.Message := AttrValue a; Error.Type_ := Error.Type_ v;
       Error.Content := Error.Content v |}
  else if AttrName a =? "type" then
    {| Error.Message := Error.Message v; Error.Type_ := AttrValue a;
       Error.Content := Error.Content v |}
  else v.

Definition skippedAttr (v : Skipped.t) (a : Attr) : Skipped.t :=
  if AttrName a =? "message" then {| Skipped.Message := AttrValue a |} else v.

(** [unmarshal] into a [*Failure]: a nil pointer is allocated first, and a
    struct already there is written over. *)
Definition unmarshalFailure (p : option Failure.t) (attrs : list Attr)
  (children : list Node) : Failure.t :=
  let v := match p with
           | Some v => v
           | None => Failure.mk EmptyString EmptyString EmptyString
           end in
  let v := fold_left failureAttr attrs v in
  {| Failure.Message := Failure.Message v; Failure.Type_ := Failure.Type_ v;
     Failure.Content := charData children |}.

Definition unmarshalError (p : option Error.t) (attrs : list Attr)
  (children : list Node) : Error.t :=
  let v := match p with
           | Some v => v
           | None => Error.mk EmptyString EmptyString EmptyString
           end in
  let v := fold_left errorAttr attrs v in
  {| Error.Message := Error.Message v; Error.Type_ := Error.Type_ v;
     Error.Content := charData children |}.

Definition unmarshalSkipped (p : option Skipped.t) (attrs : list Attr)
  : Skipped.t :=
  let v := match p with
           | Some v => v
           | None => Skipped.mk EmptyString
           end in
  fold_left skippedAttr attrs v.

Definition testCaseAttr (v : TestCase.t) (a : Attr) : TestCase.t :=
  if AttrName a =? "name" then
    TestCase.mk (AttrValue a) (TestCase.Classname v) (TestCase.Time v)
      (TestCase.Failure v) (TestCase.Error v) (TestCase.Skipped v)
  else if AttrName a =? "classname" then
    TestCase.mk (TestCase.Name v) (AttrValue a) (TestCase.Time v)
      (TestCase.Failure v) (TestCase.Error v) (TestCase.Skipped v)
  else if AttrName a =? "time" then
    TestCase.mk (TestCase.Name v) (TestCase.Classname v) (AttrValue a)
      (TestCase.Failure v) (TestCase.Error v) (TestCase.Skipped v)
  else v.

(** A child of [testcase]: the element field of its name, others skipped. *)
Definition testCaseChild (v : TestCase.t) (n : Node) : TestCase.t :=
  match n with
  | CharData _ => v
  | Element name attrs children =>
      if name =? "failure" then
        TestCase.mk (TestCase.Name v) (TestCase.Classname v) (TestCase.Time v)
          (Some (unmarshalFailure (TestCase.Failure v) attrs children))
          (TestCase.Error v) (TestCase.Skipped v)
      else if name =? "error" then
        TestCase.mk (TestCase.Name v) (TestCase.Classname v) (TestCase.Time v)
          (TestCase.Failure v)
          (Some (unmarshalError (TestCase.Error v) attrs children))
          (TestCase.Skipped v)
      else if name =? "skipped" then
        TestCase.mk (TestCase.Name v) (TestCase.Classname v) (TestCase.Time v)
          (TestCase.Failure v) (TestCase.Error v)
          (Some (unmarshalSkipped (TestCase.Skipped v) attrs))
      else v
  end.

(** [unmarshal] into a fresh element of the [TestCases] slice. *)
Definition unmarshalTestCase (attrs : list Attr) (children : list Node)
  : TestCase.t :=
  let zero :=
    TestCase.mk EmptyString EmptyString EmptyString None None None in
  fold_left testCaseChild children (fold_left testCaseAttr attrs zero).

(** An attribute of [testsuite]: the four counts are [int] fields, whose
    [copyValue] can fail; the decoder returns at the first failure. *)
Definition testSuiteAttr (quote : string -> string) (v : TestSuite.t)
  (a : Attr) : result TestSuite.t :=
  let '(TestSuite.mk name tests failures errors skipped time timestamp cases)
    := v in
  if AttrName a =? "name" then
    Ok (TestSuite.mk (AttrValue a) tests failures errors skipped time
          timestamp cases)
  else if AttrName a =? "tests" then
    match copyInt quote (AttrValue a) with
    | Ok n =>
        Ok (TestSuite.mk name n failures errors skipped time timestamp cases)
    | Err e => Err e
    end
  else if AttrName a =? "failures" then
    match copyInt quote (AttrValue a) with
    | Ok n =>
        Ok (TestSuite.mk name tests n errors skipped time timestamp cases)
    | Err e => Err e
    end
  else if AttrName a =? "errors" then
    match copyInt quote (AttrValue a) with
    | Ok n =>
        Ok (TestSuite.mk name tests failures n skipped time timestamp cases)
    | Err e => Err e
    end
  else if AttrName a =? "skipped" then
    match copyInt quote (AttrValue a) with
    | Ok n =>
        Ok (TestSuite.mk name tests failures errors n time timestamp cases)
    | Err e => Err e
    end
  else if AttrName a =? "time" then
    Ok (TestSuite.mk name tests failures errors skipped (AttrValue a)
          timestamp cases)
  else if AttrName a =? "timestamp" then
    Ok (TestSuite.mk name tests failures errors skipped time (AttrValue a)
          cases)
  else Ok v.

Fixpoint testSuiteAttrs (quote : string -> string) (v : TestSuite.t)
  (attrs : list Attr) : result TestSuite.t :=
  match attrs with
  | [] => Ok v
  | a :: rest =>
      match testSuiteAttr quote v a with
      | Ok v' => testSuiteAttrs quote v' rest
      | Err e => Err e
      end
  end.

(** A child of [testsuite]: a [testcase] grows the slice by one. *)
Definition testSuiteChild (v : TestSuite.t) (n : Node) : TestSuite.t :=
  match n with
  | CharData _ => v
  | Element name attrs children =>
      if name =? "testcase" then
        let '(TestSuite.mk sname tests failures errors skipped time timestamp
                cases) := v in
        TestSuite.mk sname tests failures errors skipped time timestamp
          (cases ++ [unmarshalTestCase attrs children])
      else v
  end.

Definition unmarshalTestSuite (quote : string -> string) (attrs : list Attr)
  (children : list Node) : result TestSuite.t :=
  let zero :=
    TestSuite.mk EmptyString 0%Z 0%Z 0%Z 0%Z EmptyString EmptyString [] in
  match testSuiteAttrs quote zero attrs with
  | Ok v => Ok (fold_left testSuiteChild children v)
  | Err e => Err e
  end.

(** The children of the root: each [testsuite] grows [TestSuites] by one. *)
Fixpoint testSuitesChildren (quote : string -> string)
  (suites : list TestSuite.t) (children : list Node)
  : result (list TestSuite.t) :=
  match children with
  | [] => Ok suites
  | CharData _ :: rest => testSuitesChildren quote suites rest
  | Element name attrs kids :: rest =>
      if name =? "testsuite" then
        match unmarshalTestSuite quote attrs kids with
        | Ok suite => testSuitesChildren quote (suites ++ [suite]) rest
        | Err e => Err e
        end
      else testSuitesChildren quote suites rest
  end.

(** [unmarshal] of the first element of the document into the zero
    [TestSuites]: the [XMLName] tag fixes the name of the root, which has no
    attribute field.  Input without any element ends in [io.EOF]. *)
Definition unmarshalRoot (quote : string -> string) (root : Node)
  : result TestSuites.t :=
  match root with
  | CharData _ => Err "EOF"
  | Element name _ children =>
      if name =? "testsuites" then
        match testSuitesChildren quote [] children with
        | Ok suites => Ok (TestSuites.mk name suites)
        | Err e => Err e
        end
      else
        Err ("expected element type <testsuites> but have <" ++ name ++ ">")
  end.

End xml.

(** ** The wire model: what is marshalled to JSON *)

Module Label.
Record t : Type := mk {
  Key : string;
  Value : string
}.
End Label.

(** A decoded JSON value; a baggage map is only passed along. *)
#[warnings="-register-all"]
Inductive json : Type :=
| JNull
| JBool (b : bool)
| JNumber (literal : string)
| JString (s : string)
| JArray (items : list json)
| JObject (members : list (string * json)).

(** [map[string]any]; the nil map is [None]. *)
Definition Baggage : Type := option (list (string * json)).

Module SessionRequest.
Record t : Type := mk {
  Id : string;
  Description : string;
  Labels : list Label.t;
  Baggage_ : Baggage
}.
End SessionRequest.

Module SessionResponse.
Record t : Type := mk {
  Id : string
}.
End SessionResponse.

Module TestcaseRequest.
Record t : Type := mk {
  SessionId : string;
  TestcaseName : string;
  TestcaseClassname : string;
  TestcaseFile : string;
  Testsuite : string;
  Status : string;
  Output : string;
  Baggage_ : Baggage
}.
End TestcaseRequest.

Module TestcasesRequest.
Record t : Type := mk {
  Testcases : list TestcaseRequest.t
}.
End TestcasesRequest.

(** The [client] field is the transport of the environment below. *)
Module Reporter.
Record t : Type := mk {
  endpoint : string;
  apiKey : string;
  sessionId : string;
  sessionDescription : string;
  sessionLabels : list Label.t;
  sessionBaggage : Baggage
}.
End Reporter.

(** [NewReporter]. *)
Definition NewReporter (endpoint apiKey sessionID sessionDescription : string)
  (sessionLabels : list Label.t) (sessionBaggage : Baggage) : Reporter.t :=
  {| Reporter.endpoint := strings.TrimSuffix endpoint "/";
     Reporter.apiKey := apiKey;
     Reporter.sessionId := sessionID;
     Reporter.sessionDescription := sessionDescription;
     Reporter.sessionLabels := sessionLabels;
     Reporter.sessionBaggage := sessionBaggage |}.

(** [parseLabels]: the loop appends to [labels] in the order the tokens are
    yielded; a nil slice is the empty list. *)
Definition parseLabels (labelsStr : string) : list Label.t :=
  if labelsStr =? EmptyString then []
  else
    fold_left
      (fun (labels : list Label.t) (labelStr : string) =>
         let labelStr := strings.TrimSpace labelStr in
         if labelStr =? EmptyString then labels
         else
           match strings.Cut labelStr "=" with
           | (before, after, true) =>
               (labels ++ [{| Label.Key := before; Label.Value := after |}])%list
           | (_, _, false) =>
               (labels
                  ++ [{| Label.Key := labelStr; Label.Value := EmptyString |}])%list
           end)
      (strings.SplitSeq labelsStr ",") [].

(** ** The normalizer: the two loops at the head of [submitResults] *)

(** The line feed of the format strings. *)
Definition LF : string := String "010" EmptyString.

(** The [if]/[else if] chain on the three pointers of a case: the status and
    the output of its record. *)
Definition statusOutput (tc : TestCase.t) : string * string :=
  match TestCase.Failure tc with
  | Some f =>
      ("fail", "Failure: " ++ Failure.Message f ++ LF ++ Failure.Content f)
  | None =>
      match TestCase.Error tc with
      | Some e =>
          ("error", "Error: " ++ Error.Message e ++ LF ++ Error.Content e)
      | None =>
          match TestCase.Skipped tc with
          | Some s => ("skip", Skipped.Message s)
          | None => ("pass", EmptyString)
          end
      end
  end.

(** The struct literal of the [append]: the record of the case [tc] of
    [suite]; the fields it leaves out are zero. *)
Definition caseRecord (r : Reporter.t) (suite : TestSuite.t) (tc : TestCase.t)
  : TestcaseRequest.t :=
  let '(status, output) := statusOutput tc in
  {| TestcaseRequest.SessionId := Reporter.sessionId r;
     TestcaseRequest.TestcaseName := TestCase.Name tc;
     TestcaseRequest.TestcaseClassname := TestCase.Classname tc;
     TestcaseRequest.TestcaseFile := EmptyString;
     TestcaseRequest.Testsuite := TestSuite.Name suite;
     TestcaseRequest.Status := status;
     TestcaseRequest.Output := output;
     TestcaseRequest.Baggage_ := None |}.

(** The body of the inner loop: one [append]. *)
Definition appendCase (r : Reporter.t) (suite : TestSuite.t)
  (testcases : list TestcaseRequest.t) (tc : TestCase.t)
  : list TestcaseRequest.t :=
  (testcases ++ [caseRecord r suite tc])%list.

(** [testcases] after both loops, from the nil slice. *)
Definition buildTestcases (r : Reporter.t) (testsuites : TestSuites.t)
  : list TestcaseRequest.t :=
  fold_left
    (fun testcases suite =>
       fold_left (appendCase r suite) (TestSuite.TestCases suite) testcases)
    (TestSuites.TestSuites testsuites) [].

(** ** The world around the program

    The JSON codec, the URL check of [http.NewRequest], the HTTP transport,
    the file system and the XML tokenizer are outside [main.go]; a run is
    relative to an environment that answers for them.  The transport and the
    input may answer by what has happened so far. *)

Record Request : Type := mkRequest {
  Method : string;
  URL : string;
  Header : list (string * string);
  Body : string
}.

Record Response : Type := mkResponse {
  StatusCode : Z;
  RespBody : string
}.

(** What a run does to the world, in the order it does it. *)
Inductive event : Type :=
| EvDo (req : Request)
| EvReadStdin
| EvReadFile (name : string)
| EvLog (line : string).

(** The answers of the world:
    - [marshalSession], [marshalTestcases]: [json.Marshal] of the two
      request structs;
    - [decodeSession]: [json.NewDecoder(body).Decode] into a
      [SessionResponse];
    - [unmarshalBaggage]: [json.Unmarshal] into a [map[string]any];
    - [checkURL]: the error of [http.NewRequest] for an address, [None] for
      nil;
    - [clientDo]: [r.client.Do], the response read to its end;
    - [readStdin], [readFile]: [io.ReadAll(os.Stdin)] and [os.ReadFile];
    - [xmlRead]: the first element the XML decoder reads from the bytes, or
      its syntax error;
    - [quote]: [strconv.Quote], for the text of number errors. *)
Record Env : Type := mkEnv {
  marshalSession : SessionRequest.t -> result string;
  marshalTestcases : TestcasesRequest.t -> result string;
  decodeSession : string -> result SessionResponse.t;
  unmarshalBaggage : string -> result Baggage;
  checkURL : string -> option string;
  clientDo : list event -> Request -> result Response;
  readStdin : list event -> result string;
  readFile : list event -> string -> result string;
  xmlRead : string -> result xml.Node;
  quote : string -> string
}.

(** [http.StatusCreated]. *)
Definition StatusCreated : Z := 201.

(** [%d] of an [int]. *)
Definition formatInt (n : Z) : string := NilEmpty.string_of_int (Z.to_int n).

(** Computations that extend the trace of events. *)
Definition M (A : Type) : Type := list event -> A * list event.

Definition ret {A : Type} (a : A) : M A := fun t => (a, t).

Definition bind {A B : Type} (m : M A) (k : A -> M B) : M B :=
  fun t => let '(a, t') := m t in k a t'.

Notation "x <- m ;; k" := (bind m (fun x => k))
  (at level 61, m at next level, right associativity).
Notation "m ;;; k" := (bind m (fun _ => k))
  (at level 61, right associativity).

(** An action whose answer depends on the trace before it. *)
Definition perform {A : Type} (e : event) (answer : list event -> A) : M A :=
  fun t => (answer t, (t ++ [e])%list).

Definition log (line : string) : M unit := perform (EvLog line) (fun _ => tt).

(** [http.NewRequest("POST", url, body)]. *)
Definition NewRequest (env : Env) (url body : string) : result Request :=
  match checkURL env url with
  | Some e => Err e
  | None => Ok (mkRequest "POST" url [] body)
  end.

(** [httpReq.Header.Set(key, value)]; the canonical form of [key] is left
    to the transport. *)
Definition HeaderSet (key value : string) (req : Request) : Request :=
  mkRequest (Method req) (URL req)
    ((key, value)
       :: filter (fun kv => negb (fst kv =? key)) (Header req))
    (Body req).

(** Both requests are built alike. *)
Definition withHeaders (r : Reporter.t) (req : Request) : Request :=
  HeaderSet "x-api-key" (Reporter.apiKey r)
    (HeaderSet "Content-Type" "application/json" req).

Definition setSessionId (r : Reporter.t) (id : string) : Reporter.t :=
  {| Reporter.endpoint := Reporter.endpoint r;
     Reporter.apiKey := Reporter.apiKey r;
     Reporter.sessionId := id;
     Reporter.sessionDescription := Reporter.sessionDescription r;
     Reporter.sessionLabels := Reporter.sessionLabels r;
     Reporter.sessionBaggage := Reporter.sessionBaggage r |}.

(** The addresses of the two requests. *)
Definition sessionsURL (r : Reporter.t) : string :=
  Reporter.endpoint r ++ "/api/v1/ingress/sessions".

Definition testcasesURL (r : Reporter.t) : string :=
  Reporter.endpoint r ++ "/api/v1/ingress/testcases".

(** The request [createSession] marshals. *)
Definition sessionRequest (r : Reporter.t) : SessionRequest.t :=
  let req :=
    {| SessionRequest.Id := Reporter.sessionId r;
       SessionRequest.Description := Reporter.sessionDescription r;
       SessionRequest.Labels := Reporter.sessionLabels r;
       SessionRequest.Baggage_ := Reporter.sessionBaggage r |} in
  if SessionRequest.Description req =? EmptyString then
    {| SessionRequest.Id := SessionRequest.Id req;
       SessionRequest.Description := "JUnit XML test report";
       SessionRequest.Labels := SessionRequest.Labels req;
       SessionRequest.Baggage_ := SessionRequest.Baggage_ req |}
  else req.

(** [(r *Reporter) createSession]: the reporter after the call and the
    error, [None] for nil. *)
Definition createSession (env : Env) (r : Reporter.t)
  : M (Reporter.t * option string) :=
  match marshalSession env (sessionRequest r) with
  | Err e => ret (r, Some ("marshal session request: " ++ e))
  | Ok body =>
      match NewRequest env (sessionsURL r) body with
      | Err e => ret (r, Some ("create session request: " ++ e))
      | Ok httpReq =>
          let httpReq := withHeaders r httpReq in
          resp <- perform (EvDo httpReq) (fun t => clientDo env t httpReq) ;;
          match resp with
          | Err e => ret (r, Some ("send session request: " ++ e))
          | Ok resp =>
              if negb (StatusCode resp =? StatusCreated)%Z then
                ret (r, Some ("create session failed: status="
                              ++ formatInt (StatusCode resp)
                              ++ " body=" ++ RespBody resp))
              else
                match decodeSession env (RespBody resp) with
                | Err e => ret (r, Some ("decode session response: " ++ e))
                | Ok sessionResp =>
                    let r := setSessionId r (SessionResponse.Id sessionResp) in
                    log ("Created session: " ++ Reporter.sessionId r ++ LF) ;;;
                    ret (r, None)
                end
          end
      end
  end.

(** [(r *Reporter) submitResults]. *)
Definition submitResults (env : Env) (r : Reporter.t)
  (testsuites : TestSuites.t) : M (option string) :=
  let testcases := buildTestcases r testsuites in
  if (List.length testcases =? 0)%nat then
    log ("No test results to submit" ++ LF) ;;; ret None
  else
    let req := {| TestcasesRequest.Testcases := testcases |} in
    match marshalTestcases env req with
    | Err e => ret (Some ("marshal testcases request: " ++ e))
    | Ok body =>
        match NewRequest env (testcasesURL r) body with
        | Err e => ret (Some ("create testcases request: " ++ e))
        | Ok httpReq =>
            let httpReq := withHeaders r httpReq in
            resp <- perform (EvDo httpReq) (fun t => clientDo env t httpReq) ;;
            match resp with
            | Err e => ret (Some ("send testcases request: " ++ e))
            | Ok resp =>
                if negb (StatusCode resp =? StatusCreated)%Z then
                  ret (Some ("submit testcases failed: status="
                             ++ formatInt (StatusCode resp)
                             ++ " body=" ++ RespBody resp))
                else
                  log ("Submitted "
                       ++ formatInt (Z.of_nat (List.length testcases))
                       ++ " test results" ++ LF) ;;;
                  ret None
            end
        end
    end.

(** The values [run] reads from the command line. *)
Record Flags : Type := mkFlags {
  ingressEndpoint : string;
  ingressAPIKey : string;
  xmlFile : string;
  sessionID : string;
  sessionDescriptionFlag : string;
  sessionLabelsFlag : string;
  sessionBaggageFlag : string
}.

(** [xml.Unmarshal(xmlData, &testsuites)]. *)
Definition Unmarshal (env : Env) (xmlData : string) : result TestSuites.t :=
  match xmlRead env xmlData with
  | Err e => Err e
  | Ok root => xml.unmarshalRoot (quote env) root
  end.

(** The input of [run]: standard input for the name [-], else the file. *)
Definition readInput (env : Env) (name : string) : M (result string) :=
  if name =? "-" then
    data <- perform EvReadStdin (readStdin env) ;;
    match data with
    | Err e => ret (Err ("read from stdin: " ++ e))
    | Ok xmlData => ret (Ok xmlData)
    end
  else
    data <- perform (EvReadFile name) (fun t => readFile env t name) ;;
    match data with
    | Err e => ret (Err ("read file " ++ name ++ ": " ++ e))
    | Ok xmlData => ret (Ok xmlData)
    end.

(** The baggage of [run]: the nil map unless the flag is set. *)
Definition parseBaggage (env : Env) (c : Flags) : result Baggage :=
  if sessionBaggageFlag c =? EmptyString then Ok None
  else unmarshalBaggage env (sessionBaggageFlag c).

(** The reporter [run] builds from the flags. *)
Definition reporterOf (c : Flags) (sessionBaggage : Baggage) : Reporter.t :=
  let sessionLabels := parseLabels (sessionLabelsFlag c) in
  NewReporter (ingressEndpoint c) (ingressAPIKey c) (sessionID c)
    (sessionDescriptionFlag c) sessionLabels sessionBaggage.

(** [run]. *)
Definition run (env : Env) (c : Flags) : M (option string) :=
  match parseBaggage env c with
  | Err e => ret (Some ("parse session baggage: " ++ e))
  | Ok sessionBaggage =>
      let reporter := reporterOf c sessionBaggage in
      created <- createSession env reporter ;;
      match created with
      | (_, Some e) => ret (Some ("create session: " ++ e))
      | (reporter, None) =>
          input <- readInput env (xmlFile c) ;;
          match input with
          | Err e => ret (Some e)
          | Ok xmlData =>
              match Unmarshal env xmlData with
              | Err e => ret (Some ("parse XML: " ++ e))
              | Ok testsuites =>
                  failed <- submitResults env reporter testsuites ;;
                  match failed with
                  | Some e => ret (Some ("submit results: " ++ e))
                  | None => ret None
                  end
              end
          end
      end
  end.

(** ** The specification's reading of the label syntax and of the batch *)

(** A token without [=] is a key; a token with [=] is split at the first
    one. *)
Definition labelOfToken (token : string) : Label.t :=
  match strings.Index token "=" with
  | None => {| Label.Key := token; Label.Value := EmptyString |}
  | Some i =>
      {| Label.Key := strings.take i token;
         Label.Value := strings.drop (S i) token |}
  end.

(** Split on commas, trim each token, drop the blank ones, read the rest. *)
Definition parseLabelsSpec (labelsStr : string) : list Label.t :=
  map labelOfToken
    (filter (fun token => negb (token =? EmptyString))
       (map strings.TrimSpace (strings.SplitSeq labelsStr ","))).

(** The number of cases of a report. *)
Definition caseCount (testsuites : TestSuites.t) : nat :=
  list_sum
    (map (fun suite => List.length (TestSuite.TestCases suite))
       (TestSuites.TestSuites testsuites)).

(** The records in document order: suite by suite, case by case. *)
Definition documentOrder (r : Reporter.t) (testsuites : TestSuites.t)
  : list TestcaseRequest.t :=
  flat_map
    (fun suite => map (caseRecord r suite) (TestSuite.TestCases suite))
    (TestSuites.TestSuites testsuites).

(** ** Reading a trace *)

(** The requests of a trace, in order. *)
Fixpoint requests (t : list event) : list Request :=
  match t with
  | [] => []
  | EvDo req :: t' => req :: requests t'
  | _ :: t' => requests t'
  end.

(** The request [createSession] sends for a marshalled body, and the one
    [submitResults] sends. *)
Definition sessionHttpRequest (r : Reporter.t) (body : string) : Request :=
  withHeaders r (mkRequest "POST" (sessionsURL r) [] body).

Definition testcasesHttpRequest (r : Reporter.t) (body : string) : Request :=
  withHeaders r (mkRequest "POST" (testcasesURL r) [] body).

(** The event of reading the input [name], what the world answers to it
    after the trace [t], and the label [run] puts on a failure. *)
Definition readEvent (name : string) : event :=
  if name =? "-" then EvReadStdin else EvReadFile name.

Definition inputAnswer (env : Env) (name : string) (t : list event)
  : result string :=
  if name =? "-" then readStdin env t else readFile env t name.

Definition inputLabel (name : string) : string :=
  if name =? "-" then "read from stdin: " else "read file " ++ name ++ ": ".

(** The log line of a created session. *)
Definition createdLine (id : string) : event :=
  EvLog ("Created session: " ++ id ++ LF).

(** ** Well-formed counts *)

(** The attributes of [testsuite] that go to [int] fields. *)
Definition isCount (name : string) : bool :=
  (name =? "tests") || (name =? "failures") || (name =? "errors")
  || (name =? "skipped").




(** ** Sample worlds *)

Module Sample.

(** [strconv.Quote] on text that needs no escape. *)
Definition plainQuote (s : string) : string :=
  String "034" (s ++ String "034" EmptyString).

(** A world with one answer of the transport and one of the input; the
    session response is decoded to the id it holds, here its whole body. *)
Definition world (answer : result Response) (input : result string)
  (root : result xml.Node) : Env :=
  {| marshalSession := fun _ => Ok "{session}";
     marshalTestcases := fun _ => Ok "{testcases}";
     decodeSession :=
       fun body =>
         if body =? EmptyString then Err "EOF"
         else Ok {| SessionResponse.Id := body |};
     unmarshalBaggage := fun _ => Err "unexpected end of JSON input";
     checkURL := fun _ => None;
     clientDo := fun _ _ => answer;
     readStdin := fun _ => input;
     readFile := fun _ _ => input;
     xmlRead := fun _ => root;
     quote := plainQuote |}.

Definition flags (file : string) : Flags :=
  {| ingressEndpoint := "http://localhost:8080";
     ingressAPIKey := "key";
     xmlFile := file;
     sessionID := "mine";
     sessionDescriptionFlag := EmptyString;
     sessionLabelsFlag := "ci";
     sessionBaggageFlag := EmptyString |}.

(** A world where the session is created and the input file is missing,
    and one where the input is no XML. *)
Definition missingFile : Env :=
  world (Ok (mkResponse 201 "s-1"))
    (Err "open missing.xml: no such file or directory") (Err "unused").

Definition notXML : Env :=
  world (Ok (mkResponse 201 "s-1")) (Ok "<testsuites")
    (Err "XML syntax error on line 1: unexpected EOF").

(** The session request of the sample flags. *)
Definition sessionPost : Request :=
  sessionHttpRequest (reporterOf (flags "missing.xml") None) "{session}".


(** A report whose suite has a time and a timestamp that are no numbers. *)
Definition malformedTime : xml.Node :=
  xml.Element "testsuites" []
    [xml.Element "testsuite"
       [xml.mkAttr "name" "pkg"; xml.mkAttr "tests" " 1 ";
        xml.mkAttr "time" "soon"; xml.mkAttr "timestamp" "yesterday"]
       [xml.Element "testcase" [xml.mkAttr "name" "TestA"] []]].


Definition malformedTimeXML : string :=
  "<testsuites><testsuite name='pkg' tests=' 1 ' time='soon' "
  ++ "timestamp='yesterday'><testcase name='TestA'/></testsuite></testsuites>".


Definition timeReport : Env :=
  world (Ok (mkResponse 201 "s-1")) (Ok malformedTimeXML) (Ok malformedTime).

(** A report of one suite without cases. *)
Definition noCases : TestSuites.t :=
  TestSuites.mk "testsuites"
    [TestSuite.mk "pkg" 0 0 0 0 EmptyString EmptyString []].

End Sample.

(** ** Reading a document and a trace further *)

(** A node that is an element of the given name. *)
Definition isElement (name : string) (n : xml.Node) : bool :=
  match n with
  | xml.Element nm _ _ => nm =? name
  | xml.CharData _ => false
  end.

(** Some child is an element of the given name. *)
Definition hasElement (name : string) (children : list xml.Node) : bool :=
  existsb (isElement name) children.

(** The child elements of the given name, in order: the attributes and the
    children of each. *)
Fixpoint elementsNamed (name : string) (children : list xml.Node)
  : list (list xml.Attr * list xml.Node) :=
  match children with
  | [] => []
  | xml.Element nm attrs kids :: rest =>
      if nm =? name then (attrs, kids) :: elementsNamed name rest
      else elementsNamed name rest
  | xml.CharData _ :: rest => elementsNamed name rest
  end.

(** The value of the last attribute of the given name, [default] when there
    is none. *)
Definition attrOr (default name : string) (attrs : list xml.Attr) : string :=
  fold_left
    (fun value a => if xml.AttrName a =? name then xml.AttrValue a else value)
    attrs default.

(** The number of [testcase] elements under the [testsuite] elements of a
    root. *)
Definition caseElements (children : list xml.Node) : nat :=
  list_sum
    (map (fun suite => List.length (elementsNamed "testcase" (snd suite)))
       (elementsNamed "testsuite" children)).

(** A pointer that is not nil. *)
Definition present {A : Type} (p : option A) : bool :=
  match p with
  | Some _ => true
  | None => false
  end.

(** The case [xml.unmarshalTestCase] makes of a [testcase] element. *)
Definition caseOfElement (element : list xml.Attr * list xml.Node)
  : TestCase.t :=
  xml.unmarshalTestCase (fst element) (snd element).

(** A parsed suite, read off its element. *)
Definition suiteOf (suite : TestSuite.t)
  (element : list xml.Attr * list xml.Node) : Prop :=
  TestSuite.Name suite = attrOr EmptyString "name" (fst element)
  /\ TestSuite.Time suite = attrOr EmptyString "time" (fst element)
  /\ TestSuite.Timestamp suite
     = attrOr EmptyString "timestamp" (fst element)
  /\ TestSuite.TestCases suite
     = map caseOfElement (elementsNamed "testcase" (snd element)).

(** The attributes [TestSuite] has a field for. *)
Definition suiteField (a : xml.Attr) : bool :=
  (xml.AttrName a =? "name") || isCount (xml.AttrName a)
  || (xml.AttrName a =? "time") || (xml.AttrName a =? "timestamp").

(** A document without what the structs have no field for at the two outer
    levels: the attributes of the root, the children of the root that are
    no [testsuite] element, and the other attributes of each
    [testsuite]. *)
Definition pruneSuite (n : xml.Node) : xml.Node :=
  match n with
  | xml.Element name attrs kids => xml.Element name (filter suiteField attrs) kids
  | xml.CharData text => xml.CharData text
  end.

Definition pruneRoot (root : xml.Node) : xml.Node :=
  match root with
  | xml.Element name _ children =>
      xml.Element name []
        (map pruneSuite (filter (isElement "testsuite") children))
  | xml.CharData text => xml.CharData text
  end.

(** The session request [run] makes of the flags. *)
Definition sessionRequestOf (c : Flags) (sessionBaggage : Baggage)
  : SessionRequest.t :=
  {| SessionRequest.Id := sessionID c;
     SessionRequest.Description :=
       if sessionDescriptionFlag c =? EmptyString
       then "JUnit XML test report" else sessionDescriptionFlag c;
     SessionRequest.Labels := parseLabelsSpec (sessionLabelsFlag c);
     SessionRequest.Baggage_ := sessionBaggage |}.

(** How often a trace reads the input. *)
Fixpoint inputReads (t : list event) : nat :=
  match t with
  | [] => 0
  | EvReadStdin :: t' => S (inputReads t')
  | EvReadFile _ :: t' => S (inputReads t')
  | _ :: t' => inputReads t'
  end.

(** The headers of both requests. *)
Definition ingressHeader (apiKey : string) : list (string * string) :=
  [("x-api-key", apiKey); ("Content-Type", "application/json")].

(** The log line of an empty report. *)
Definition nothingLine : event := EvLog ("No test results to submit" ++ LF).

(** The log line of a submitted batch. *)
Definition submittedLine (n : nat) : event :=
  EvLog ("Submitted " ++ formatInt (Z.of_nat n) ++ " test results" ++ LF).



(** ** More sample values *)

Module Fixture.

(** A report of one suite with one passing case. *)
Definition oneCase : TestSuites.t :=
  TestSuites.mk "testsuites"
    [TestSuite.mk "pkg" 1 0 0 0 EmptyString EmptyString
       [TestCase.mk "TestA" EmptyString EmptyString None None None]].

(** A world that answers every request with 500, and one that answers with
    201 and the session id [s-1]; both read a report of one case. *)
Definition rejecting : Env :=
  Sample.world (Ok (mkResponse 500 "boom")) (Ok Sample.malformedTimeXML)
    (Ok Sample.malformedTime).

Definition accepting : Env := Sample.timeReport.

(** A world whose input has another root element. *)
Definition otherRoot : Env :=
  Sample.world (Ok (mkResponse 201 "s-1")) (Ok "<testsuite name='pkg'/>")
    (Ok (xml.Element "testsuite" [xml.mkAttr "name" "pkg"] [])).

(** A world that creates the session and then answers 503. *)
Definition lateFailure : Env :=
  {| marshalSession := marshalSession accepting;
     marshalTestcases := marshalTestcases accepting;
     decodeSession := decodeSession accepting;
     unmarshalBaggage := unmarshalBaggage accepting;
     checkURL := checkURL accepting;
     clientDo :=
       fun t _ =>
         match t with
         | [] => Ok (mkResponse 201 "s-1")
         | _ :: _ => Ok (mkResponse 503 "busy")
         end;
     readStdin := readStdin accepting;
     readFile := readFile accepting;
     xmlRead := xmlRead accepting;
     quote := quote accepting |}.

(** Flags with a baggage that is no JSON. *)
Definition badBaggage : Flags :=
  {| ingressEndpoint := "http://localhost:8080";
     ingressAPIKey := "key";
     xmlFile := "report.xml";
     sessionID := EmptyString;
     sessionDescriptionFlag := EmptyString;
     sessionLabelsFlag := EmptyString;
     sessionBaggageFlag := "{" |}.

(** The reporter of the sample flags before and after the session. *)
Definition reporter : Reporter.t := reporterOf (Sample.flags "report.xml") None.

Definition resolved : Reporter.t := setSessionId reporter "s-1".

End Fixture.

(** * Properties *)

(** ** Byte strings *)

Module StringFacts.

Lemma length_app (a b : string) : length (a ++ b) = length a + length b.
Proof. induction a as [|c a IH]; simpl; [reflexivity | now rewrite IH]. Qed.

Lemma app_nil_r (a : string) : a ++ EmptyString = a.
Proof. induction a as [|c a IH]; simpl; [reflexivity | now rewrite IH]. Qed.

Lemma app_assoc (a b c : string) : (a ++ b) ++ c = a ++ (b ++ c).
Proof. induction a as [|x a IH]; simpl; [reflexivity | now rewrite IH]. Qed.

Lemma app_inv_head (a b c : string) : a ++ b = a ++ c -> b = c.
Proof.
  induction a as [|x a IH]; simpl; intros H; [assumption|].
  injection H as H. auto.
Qed.

Lemma drop_app (a b : string) : strings.drop (length a) (a ++ b) = b.
Proof. induction a as [|c a IH]; simpl; auto. Qed.

Lemma take_app (a b : string) : strings.take (length a) (a ++ b) = a.
Proof.
  induction a as [|c a IH]; simpl; [now destruct b | now rewrite IH].
Qed.

Lemma length_drop (n : nat) (s : string) :
  length (strings.drop n s) = length s - n.
Proof.
  revert s; induction n as [|n IH]; intros [|c s]; simpl; auto.
Qed.

(** A prefix can be split off. *)
Lemma prefix_split (p s : string) :
  prefix p s = true -> s = p ++ strings.drop (length p) s.
Proof.
  revert s; induction p as [|c p IH]; intros [|d s] H; simpl in *;
    try reflexivity; try discriminate.
  destruct (ascii_dec c d) as [->|]; [|discriminate].
  f_equal. auto.
Qed.

Lemma prefix_nil (s : string) : prefix EmptyString s = true.
Proof. now destruct s. Qed.

(** A prefix of a truncated string is a prefix of the whole string. *)
Lemma prefix_take (p : string) (n : nat) (s : string) :
  prefix p (strings.take n s) = true -> prefix p s = true.
Proof.
  revert n s; induction p as [|c p IH]; intros n s H;
    [apply prefix_nil|].
  destruct n as [|n], s as [|d s]; simpl in *; try discriminate.
  destruct (ascii_dec c d); [eauto | discriminate].
Qed.

End StringFacts.

(** ** The [strings] functions *)

Module StringsFacts.
Import StringFacts.

Lemma HasSuffix_app (e x : string) : strings.HasSuffix (e ++ x) x = true.
Proof.
  unfold strings.HasSuffix. rewrite length_app.
  replace (length e + length x - length x) with (length e) by lia.
  rewrite drop_app, String.eqb_refl, andb_true_r.
  apply Nat.leb_le. lia.
Qed.

(** The suffix is removed once, whatever stands before it. *)
Lemma TrimSuffix_app (e x : string) : strings.TrimSuffix (e ++ x) x = e.
Proof.
  unfold strings.TrimSuffix. rewrite HasSuffix_app, length_app.
  replace (length e + length x - length x) with (length e) by lia.
  apply take_app.
Qed.

Lemma take_drop (n : nat) (s : string) :
  strings.take n s ++ strings.drop n s = s.
Proof.
  revert s; induction n as [|n IH]; intros [|c s]; simpl; try reflexivity.
  now rewrite IH.
Qed.

(** A suffix that is there is what [TrimSuffix] takes away, no more. *)
Lemma TrimSuffix_present (e x : string) :
  strings.HasSuffix e x = true -> e = strings.TrimSuffix e x ++ x.
Proof.
  intros H. unfold strings.TrimSuffix. rewrite H.
  unfold strings.HasSuffix in H. apply andb_prop in H as [_ H].
  apply String.eqb_eq in H. rewrite <- H at 2. symmetry. apply take_drop.
Qed.

Lemma TrimSuffix_absent (e x : string) :
  strings.HasSuffix e x = false -> strings.TrimSuffix e x = e.
Proof. unfold strings.TrimSuffix. now intros ->. Qed.

(** [Index] finds an occurrence: the string splits around it. *)
Lemma Index_split (s sep : string) (i : nat) :
  strings.Index s sep = Some i ->
  s = strings.take i s ++ sep ++ strings.drop (i + length sep) s.
Proof.
  revert i; induction s as [|c s IH]; intros i;
    cbn [strings.Index]; unfold strings.HasPrefix.
  - destruct (prefix sep EmptyString) eqn:E; [|discriminate].
    intros [= <-]. now apply prefix_split in E.
  - destruct (prefix sep (String c s)) eqn:E.
    + intros [= <-]. now apply prefix_split in E.
    + destruct (strings.Index s sep) as [j|] eqn:Ej; [|discriminate].
      intros [= <-]. simpl. f_equal. now apply IH.
Qed.

(** [Index] finds the first occurrence: there is none before it. *)
Lemma Index_first (s sep : string) (i : nat) :
  sep <> EmptyString ->
  strings.Index s sep = Some i ->
  strings.Index (strings.take i s) sep = None.
Proof.
  intros Hsep. revert i; induction s as [|c s IH]; intros i;
    cbn [strings.Index]; unfold strings.HasPrefix.
  - destruct sep; [congruence|]. discriminate.
  - destruct (prefix sep (String c s)) eqn:E.
    + intros [= <-]. destruct sep; [congruence | reflexivity].
    + destruct (strings.Index s sep) as [j|] eqn:Ej; [|discriminate].
      intros [= <-]. cbn [strings.take strings.Index].
      unfold strings.HasPrefix.
      destruct (prefix sep (String c (strings.take j s))) eqn:E'.
      * apply (prefix_take sep (S j) (String c s)) in E'. congruence.
      * now rewrite (IH j eq_refl).
Qed.

(** With fuel above the length, [splitLoop] ends because no separator is
    left: its fragments joined by the separator give the string back, and
    no fragment contains the separator. *)
Lemma splitLoop_join (sep : string) :
  sep <> EmptyString ->
  forall fuel s, length s < fuel ->
  String.concat sep (strings.splitLoop fuel s sep) = s
  /\ Forall (fun frag => strings.Index frag sep = None)
       (strings.splitLoop fuel s sep).
Proof.
  intros Hsep. induction fuel as [|fuel IH]; intros s Hlen; [lia|].
  simpl. destruct (strings.Index s sep) as [i|] eqn:E.
  - pose proof (Index_split _ _ _ E) as Hs.
    assert (Hrest : length (strings.drop (i + length sep) s) < fuel).
    { pose proof (f_equal length Hs) as Hl.
      rewrite !length_app, length_drop in Hl. rewrite length_drop.
      destruct sep; [congruence|]. simpl in *. lia. }
    destruct (IH _ Hrest) as [Hj Hf]. split.
    + cbn [String.concat].
      destruct (strings.splitLoop fuel (strings.drop (i + length sep) s) sep)
        as [|frag frags] eqn:El.
      * destruct fuel; [lia|]. simpl in El.
        destruct (strings.Index (strings.drop (i + length sep) s) sep);
          discriminate.
      * rewrite Hj. symmetry. exact Hs.
    + constructor; [now apply Index_first | exact Hf].
  - split; [reflexivity | now constructor].
Qed.

(** *** Trimming *)

Lemma reverse_app (a b : string) :
  strings.reverse (a ++ b) = strings.reverse b ++ strings.reverse a.
Proof.
  induction a as [|c a IH]; simpl; [now rewrite app_nil_r|].
  now rewrite IH, app_assoc.
Qed.

Lemma reverse_involutive (s : string) :
  strings.reverse (strings.reverse s) = s.
Proof.
  induction s as [|c s IH]; simpl; [reflexivity|].
  now rewrite reverse_app, IH.
Qed.

Section Trim.

Variable two : ascii -> ascii -> bool.
Variable three : ascii -> ascii -> ascii -> bool.

(** What [trimLeft] removes is white space, and what it leaves does not
    start with white space. *)
Lemma trimLeft_split (n : nat) (s : string) :
  length s <= n ->
  (exists pre,
      strings.Runs two three pre /\ s = pre ++ strings.trimLeft two three s)
  /\ strings.leading two three (strings.trimLeft two three s) = false.
Proof.
  revert s; induction n as [|n IH]; intros [|b0 s1] Hlen; simpl in Hlen;
    try lia;
    try (split; [exists EmptyString; split; [constructor | reflexivity]
                | reflexivity]).
  cbn [strings.trimLeft]. destruct (strings.asciiSpace b0) eqn:E0.
  { destruct (IH s1) as [(pre & Hpre & Heq) Hlead]; [lia|].
    split; [|exact Hlead].
    exists (String b0 pre). split; [now constructor | simpl; congruence]. }
  destruct s1 as [|b1 s2].
  { split; [exists EmptyString; split; [constructor | reflexivity]|].
    simpl. now rewrite E0. }
  destruct (two b0 b1) eqn:E2.
  { destruct (IH s2) as [(pre & Hpre & Heq) Hlead]; [simpl in Hlen; lia|].
    split; [|exact Hlead].
    exists (String b0 (String b1 pre)).
    split; [now constructor | simpl; congruence]. }
  destruct s2 as [|b2 s3].
  { split; [exists EmptyString; split; [constructor | reflexivity]|].
    simpl. now rewrite E0, E2. }
  destruct (three b0 b1 b2) eqn:E3.
  { destruct (IH s3) as [(pre & Hpre & Heq) Hlead]; [simpl in Hlen; lia|].
    split; [|exact Hlead].
    exists (String b0 (String b1 (String b2 pre))).
    split; [now constructor | simpl; congruence]. }
  split; [exists EmptyString; split; [constructor | reflexivity]|].
  simpl. now rewrite E0, E2, E3.
Qed.

Lemma Runs_app (a b : string) :
  strings.Runs two three a -> strings.Runs two three b ->
  strings.Runs two three (a ++ b).
Proof.
  induction 1; simpl; intros Hb;
    [assumption
    | apply strings.Runs_one | apply strings.Runs_two
    | apply strings.Runs_three]; auto.
Qed.

(** White space at the head of a string stays there when bytes are added
    behind. *)
Lemma leading_app (r post : string) :
  strings.leading two three r = true ->
  strings.leading two three (r ++ post) = true.
Proof.
  destruct r as [|b0 [|b1 [|b2 r]]]; simpl; try discriminate.
  - rewrite orb_false_r. now intros ->.
  - rewrite orb_false_r. destruct (strings.asciiSpace b0); [reflexivity|].
    simpl. now intros ->.
  - auto.
Qed.

End Trim.

Lemma Runs_reverse (p : string) :
  strings.Runs strings.space2Rev strings.space3Rev p ->
  strings.Spaces (strings.reverse p).
Proof.
  unfold strings.Spaces.
  induction 1 as [|b0 s H0 _ IH|b0 b1 s H2 _ IH|b0 b1 b2 s H3 _ IH]; simpl;
    [constructor | | |]; rewrite ?app_assoc;
    (apply Runs_app; [exact IH|]); simpl.
  - now repeat constructor.
  - apply strings.Runs_two; [exact H2 | constructor].
  - apply strings.Runs_three; [exact H3 | constructor].
Qed.

(** [TrimSpace] takes white space, and only white space, from both ends
    and leaves none at either end. *)
Lemma TrimSpace_split (s : string) :
  (exists pre post,
      strings.Spaces pre /\ strings.Spaces post
      /\ s = pre ++ strings.TrimSpace s ++ post)
  /\ strings.leadingSpace (strings.TrimSpace s) = false
  /\ strings.trailingSpace (strings.TrimSpace s) = false.
Proof.
  unfold strings.TrimSpace, strings.trimRightSpace, strings.trimLeftSpace.
  destruct (trimLeft_split strings.space2 strings.space3 _ s (le_n _))
    as [(pre & Hpre & Hs) Hlead].
  set (t := strings.trimLeft strings.space2 strings.space3 s) in *.
  destruct (trimLeft_split strings.space2Rev strings.space3Rev _
              (strings.reverse t) (le_n _)) as [(erp & Herp & Ht) Htrail].
  set (u := strings.trimLeft strings.space2Rev strings.space3Rev
              (strings.reverse t)) in *.
  assert (Ht' : t = strings.reverse u ++ strings.reverse erp).
  { now rewrite <- reverse_app, <- Ht, reverse_involutive. }
  split; [|split].
  - exists pre, (strings.reverse erp).
    split; [exact Hpre|]. split; [now apply Runs_reverse|].
    now rewrite <- Ht'.
  - unfold strings.leadingSpace.
    destruct (strings.leading strings.space2 strings.space3
                (strings.reverse u)) eqn:E; [|reflexivity].
    apply (leading_app _ _ _ (strings.reverse erp)) in E.
    rewrite <- Ht' in E. congruence.
  - unfold strings.trailingSpace. now rewrite reverse_involutive.
Qed.

End StringsFacts.

(** ** Endpoint *)

(** C10: [NewReporter] strips exactly one trailing slash: whatever the
    endpoint, the endpoint followed by a slash is stored as the endpoint
    itself and of an endpoint that ends in a slash only that slash goes; so
    an endpoint written with a single trailing slash gives the same
    reporter, and the same two request addresses, as the endpoint written
    without the slash. *)
Theorem NewReporter_trailing_slash
  (e apiKey sessionID description : string) (labels : list Label.t)
  (baggage : Baggage) :
  let slashed := NewReporter (e ++ "/") apiKey sessionID description labels
                   baggage in
  let plain := NewReporter e apiKey sessionID description labels baggage in
  Reporter.endpoint slashed = e
  /\ sessionsURL slashed = e ++ "/api/v1/ingress/sessions"
  /\ testcasesURL slashed = e ++ "/api/v1/ingress/testcases"
  /\ (strings.HasSuffix e "/" = true ->
      e = Reporter.endpoint plain ++ "/"
      /\ Reporter.endpoint slashed = Reporter.endpoint plain ++ "/"
      /\ slashed <> plain)
  /\ (strings.HasSuffix e "/" = false ->
      Reporter.endpoint plain = e
      /\ slashed = plain
      /\ sessionsURL slashed = sessionsURL plain
      /\ testcasesURL slashed = testcasesURL plain).
Proof.
  intros slashed plain.
  assert (Hs : Reporter.endpoint slashed = e)
    by apply StringsFacts.TrimSuffix_app.
  split; [exact Hs|].
  split; [unfold sessionsURL; now rewrite Hs|].
  split; [unfold testcasesURL; now rewrite Hs|].
  split.
  - intros Hslash.
    assert (Hp : e = Reporter.endpoint plain ++ "/")
      by now apply StringsFacts.TrimSuffix_present.
    split; [exact Hp|]. split; [now rewrite Hs|].
    intros Heq. rewrite <- Heq, Hs in Hp.
    apply (f_equal length) in Hp. rewrite StringFacts.length_app in Hp.
    simpl in Hp. lia.
  - intros Hplain.
    assert (Hp : Reporter.endpoint plain = e)
      by now apply StringsFacts.TrimSuffix_absent.
    assert (Heq : slashed = plain).
    { unfold slashed, plain, NewReporter. f_equal.
      exact (eq_trans Hs (eq_sym Hp)). }
    unfold sessionsURL, testcasesURL. rewrite <- Heq. tauto.
Qed.

Lemma NewReporter_trailing_slash_witness :
  strings.HasSuffix "http://localhost:8080" "/" = false
  /\ NewReporter "http://localhost:8080/" "key" EmptyString EmptyString [] None
     = NewReporter "http://localhost:8080" "key" EmptyString EmptyString []
         None
  /\ strings.HasSuffix "http://h/" "/" = true
  /\ NewReporter "http://h//" "key" EmptyString EmptyString [] None
     <> NewReporter "http://h/" "key" EmptyString EmptyString [] None.
Proof.
  split; [reflexivity|]. split.
  - apply (NewReporter_trailing_slash "http://localhost:8080" "key"
             EmptyString EmptyString [] None).
    reflexivity.
  - split; [reflexivity|].
    apply (NewReporter_trailing_slash "http://h/" "key" EmptyString
             EmptyString [] None).
    reflexivity.
Defined.

(** Only one slash goes: of two trailing slashes one stays. *)
Example NewReporter_two_slashes :
  Reporter.endpoint (NewReporter "http://h//" "k" EmptyString EmptyString []
                       None) = "http://h/".
Proof. reflexivity. Qed.

(** ** Labels *)

Module LabelFacts.

Lemma Cut_label (token : string) :
  (let '(before, after, found) := strings.Cut token "=" in
   if found then {| Label.Key := before; Label.Value := after |}
   else {| Label.Key := token; Label.Value := EmptyString |})
  = labelOfToken token.
Proof.
  unfold strings.Cut, labelOfToken.
  destruct (strings.Index token "=") as [i|]; [|reflexivity].
  cbn [length]. now rewrite Nat.add_1_r.
Qed.

(** The loop of [parseLabels] from any slice built so far. *)
Lemma parseLabels_loop (tokens : list string) (labels : list Label.t) :
  fold_left
    (fun (labels : list Label.t) (labelStr : string) =>
       let labelStr := strings.TrimSpace labelStr in
       if labelStr =? EmptyString then labels
       else
         match strings.Cut labelStr "=" with
         | (before, after, true) =>
             (labels ++ [{| Label.Key := before; Label.Value := after |}])%list
         | (_, _, false) =>
             (labels
                ++ [{| Label.Key := labelStr; Label.Value := EmptyString |}])%list
         end)
    tokens labels
  = (labels
       ++ map labelOfToken
            (filter (fun token => negb (token =? EmptyString))
               (map strings.TrimSpace tokens)))%list.
Proof.
  revert labels; induction tokens as [|token tokens IH]; intros labels;
    cbn [fold_left map filter].
  - now rewrite List.app_nil_r.
  - rewrite IH. cbv zeta.
    destruct (strings.TrimSpace token =? EmptyString); cbn [negb];
      [reflexivity|].
    cbn [map]. rewrite <- (Cut_label (strings.TrimSpace token)).
    destruct (strings.Cut (strings.TrimSpace token) "=") as [[before after] [|]];
      now rewrite <- List.app_assoc.
Qed.

Lemma parseLabels_refines (labelsStr : string) :
  parseLabels labelsStr = parseLabelsSpec labelsStr.
Proof.
  unfold parseLabels, parseLabelsSpec.
  destruct (String.eqb_spec labelsStr EmptyString) as [->|_];
    [reflexivity|].
  now rewrite parseLabels_loop.
Qed.

End LabelFacts.

(** C8: [parseLabels] splits its input on commas (the tokens joined by
    commas give the input back and hold no comma), trims each token with
    [strings.TrimSpace] (white space, and nothing else, goes from both ends
    until none is left there), drops the blank ones, and reads a token
    without [=] as a key and a token with [=] as key and value around the
    first [=]; the input [ci,tag=value, ,env=] gives the labels ci,
    tag=value and env with an empty value. *)
Theorem parseLabels_tokens :
  (forall labelsStr : string,
      parseLabels labelsStr = parseLabelsSpec labelsStr
      /\ String.concat "," (strings.SplitSeq labelsStr ",") = labelsStr
      /\ Forall (fun token => strings.Index token "," = None)
           (strings.SplitSeq labelsStr ","))
  /\ (forall token : string,
         (exists pre post,
             strings.Spaces pre /\ strings.Spaces post
             /\ token = pre ++ strings.TrimSpace token ++ post)
         /\ strings.leadingSpace (strings.TrimSpace token) = false
         /\ strings.trailingSpace (strings.TrimSpace token) = false)
  /\ (forall token : string,
         match strings.Index token "=" with
         | None =>
             labelOfToken token
             = {| Label.Key := token; Label.Value := EmptyString |}
         | Some _ =>
             token
             = Label.Key (labelOfToken token) ++ "="
               ++ Label.Value (labelOfToken token)
             /\ strings.Index (Label.Key (labelOfToken token)) "=" = None
         end)
  /\ parseLabels "ci,tag=value, ,env="
     = [ {| Label.Key := "ci"; Label.Value := EmptyString |};
         {| Label.Key := "tag"; Label.Value := "value" |};
         {| Label.Key := "env"; Label.Value := EmptyString |} ].
Proof.
  split; [|split; [|split; [|reflexivity]]].
  - intros labelsStr. split; [apply LabelFacts.parseLabels_refines|].
    apply StringsFacts.splitLoop_join; [discriminate | simpl; lia].
  - apply StringsFacts.TrimSpace_split.
  - intros token. unfold labelOfToken.
    destruct (strings.Index token "=") as [i|] eqn:E; [|reflexivity].
    cbn [Label.Key Label.Value]. split.
    + pose proof (StringsFacts.Index_split _ _ _ E) as H.
      cbn [length] in H. now rewrite Nat.add_1_r in H.
    + apply StringsFacts.Index_first; [discriminate | exact E].
Qed.

(** ** The normalizer *)

Module NormalizerFacts.

Lemma appendCase_loop (r : Reporter.t) (suite : TestSuite.t)
  (cases : list TestCase.t) (testcases : list TestcaseRequest.t) :
  fold_left (appendCase r suite) cases testcases
  = (testcases ++ map (caseRecord r suite) cases)%list.
Proof.
  revert testcases; induction cases as [|tc cases IH]; intros testcases;
    simpl.
  - now rewrite List.app_nil_r.
  - rewrite IH. unfold appendCase. now rewrite <- List.app_assoc.
Qed.

Lemma suites_loop (r : Reporter.t) (suites : list TestSuite.t)
  (testcases : list TestcaseRequest.t) :
  fold_left
    (fun testcases suite =>
       fold_left (appendCase r suite) (TestSuite.TestCases suite) testcases)
    suites testcases
  = (testcases
       ++ flat_map
            (fun suite => map (caseRecord r suite) (TestSuite.TestCases suite))
            suites)%list.
Proof.
  revert testcases; induction suites as [|suite suites IH]; intros testcases;
    simpl.
  - now rewrite List.app_nil_r.
  - now rewrite IH, appendCase_loop, List.app_assoc.
Qed.

Lemma buildTestcases_documentOrder (r : Reporter.t) (testsuites : TestSuites.t) :
  buildTestcases r testsuites = documentOrder r testsuites.
Proof. unfold buildTestcases. now rewrite suites_loop. Qed.

Lemma buildTestcases_length (r : Reporter.t) (testsuites : TestSuites.t) :
  List.length (buildTestcases r testsuites) = caseCount testsuites.
Proof.
  rewrite buildTestcases_documentOrder. unfold documentOrder, caseCount.
  rewrite length_flat_map. f_equal. apply map_ext. intros suite.
  apply length_map.
Qed.

Lemma caseRecord_names (r : Reporter.t) (suite : TestSuite.t)
  (tc : TestCase.t) :
  TestcaseRequest.Testsuite (caseRecord r suite tc) = TestSuite.Name suite
  /\ TestcaseRequest.TestcaseName (caseRecord r suite tc) = TestCase.Name tc
  /\ TestcaseRequest.TestcaseClassname (caseRecord r suite tc)
     = TestCase.Classname tc
  /\ TestcaseRequest.SessionId (caseRecord r suite tc) = Reporter.sessionId r.
Proof. unfold caseRecord. now destruct (statusOutput tc). Qed.

End NormalizerFacts.

(** ** The parser *)

Module ParserFacts.







End ParserFacts.

Module ParseFacts.


End ParseFacts.


(** ** The two network operations and the driver *)

Module PipelineFacts.

Lemma requests_app (t u : list event) :
  requests (t ++ u) = (requests t ++ requests u)%list.
Proof.
  induction t as [|[req| |name|line] t IH]; simpl; congruence.
Qed.

Lemma requests_In (req : Request) (t : list event) :
  In (EvDo req) t <-> In req (requests t).
Proof.
  induction t as [|[req'| |name|line] t IH]; simpl; [tauto | | | |].
  - rewrite <- IH. split; intros [H|H]; auto; left; congruence.
  - rewrite <- IH. split; [intros [H|H]; [discriminate | exact H] | auto].
  - rewrite <- IH. split; [intros [H|H]; [discriminate | exact H] | auto].
  - rewrite <- IH. split; [intros [H|H]; [discriminate | exact H] | auto].
Qed.

(** [createSession] ends before the request when the body cannot be
    marshalled or the address is refused. *)
Lemma createSession_unsent (env : Env) (r : Reporter.t) (t : list event) :
  (forall e, marshalSession env (sessionRequest r) = Err e ->
     createSession env r t = ((r, Some ("marshal session request: " ++ e)), t))
  /\ (forall body e,
        marshalSession env (sessionRequest r) = Ok body ->
        checkURL env (sessionsURL r) = Some e ->
        createSession env r t
        = ((r, Some ("create session request: " ++ e)), t)).
Proof.
  unfold createSession, NewRequest. split.
  - now intros e ->.
  - now intros body e -> ->.
Qed.

(** [createSession] once the request is built: one request, then the
    answer decides. *)
Lemma createSession_sent (env : Env) (r : Reporter.t) (t : list event)
  (body : string) :
  marshalSession env (sessionRequest r) = Ok body ->
  checkURL env (sessionsURL r) = None ->
  let httpReq := sessionHttpRequest r body in
  createSession env r t
  = match clientDo env t httpReq with
    | Err e =>
        ((r, Some ("send session request: " ++ e)), (t ++ [EvDo httpReq])%list)
    | Ok resp =>
        if (StatusCode resp =? StatusCreated)%Z then
          match decodeSession env (RespBody resp) with
          | Err e =>
              ((r, Some ("decode session response: " ++ e)),
               (t ++ [EvDo httpReq])%list)
          | Ok sessionResp =>
              ((setSessionId r (SessionResponse.Id sessionResp), None),
               (t ++ [EvDo httpReq;
                      createdLine (SessionResponse.Id sessionResp)])%list)
          end
        else
          ((r, Some ("create session failed: status="
                     ++ formatInt (StatusCode resp)
                     ++ " body=" ++ RespBody resp)),
           (t ++ [EvDo httpReq])%list)
    end.
Proof.
  intros Hbody Hurl httpReq.
  unfold createSession, NewRequest. rewrite Hbody, Hurl.
  fold (sessionHttpRequest r body). fold httpReq.
  unfold log, bind, perform, ret.
  destruct (clientDo env t httpReq) as [resp|e]; [|reflexivity].
  destruct (StatusCode resp =? StatusCreated)%Z; cbn [negb]; [|reflexivity].
  destruct (decodeSession env (RespBody resp)) as [sessionResp|e];
    [|reflexivity].
  cbn [Reporter.sessionId setSessionId]. unfold createdLine.
  now rewrite <- List.app_assoc.
Qed.

(** A successful [createSession] went all the way. *)
Lemma createSession_success (env : Env) (r r' : Reporter.t)
  (t t' : list event) :
  createSession env r t = ((r', None), t') ->
  exists body resp sessionResp,
    marshalSession env (sessionRequest r) = Ok body
    /\ checkURL env (sessionsURL r) = None
    /\ clientDo env t (sessionHttpRequest r body) = Ok resp
    /\ StatusCode resp = StatusCreated
    /\ decodeSession env (RespBody resp) = Ok sessionResp
    /\ r' = setSessionId r (SessionResponse.Id sessionResp)
    /\ t' = (t ++ [EvDo (sessionHttpRequest r body);
                   createdLine (SessionResponse.Id sessionResp)])%list.
Proof.
  intros H.
  destruct (marshalSession env (sessionRequest r)) as [body|e] eqn:Hbody.
  2:{ rewrite (proj1 (createSession_unsent env r t) e Hbody) in H.
      discriminate. }
  destruct (checkURL env (sessionsURL r)) as [e|] eqn:Hurl.
  { rewrite (proj2 (createSession_unsent env r t) body e Hbody Hurl) in H.
    discriminate. }
  rewrite (createSession_sent env r t body Hbody Hurl) in H. cbv zeta in H.
  destruct (clientDo env t (sessionHttpRequest r body)) as [resp|e] eqn:Hdo;
    [|discriminate].
  destruct (StatusCode resp =? StatusCreated)%Z eqn:Hst; [|discriminate].
  destruct (decodeSession env (RespBody resp)) as [sessionResp|e] eqn:Hdec;
    [|discriminate].
  injection H as <- <-. exists body, resp, sessionResp.
  apply Z.eqb_eq in Hst. auto 10.
Qed.

(** [readInput] reads once and labels a failure. *)
Lemma readInput_once (env : Env) (name : string) (t : list event) :
  readInput env name t
  = (match inputAnswer env name t with
     | Err e => Err (inputLabel name ++ e)
     | Ok xmlData => Ok xmlData
     end, (t ++ [readEvent name])%list).
Proof.
  unfold readInput, inputAnswer, inputLabel, readEvent, bind, perform, ret.
  destruct (name =? "-").
  - now destruct (readStdin env t).
  - destruct (readFile env t name); [reflexivity|].
    now rewrite !StringFacts.app_assoc.
Qed.

(** The stages of [run], one after the other. *)
Lemma run_stages (env : Env) (c : Flags) (t : list event) :
  run env c t
  = match parseBaggage env c with
    | Err e => (Some ("parse session baggage: " ++ e), t)
    | Ok sessionBaggage =>
        let '((reporter, failed), t1) :=
          createSession env (reporterOf c sessionBaggage) t in
        match failed with
        | Some e => (Some ("create session: " ++ e), t1)
        | None =>
            let t2 := (t1 ++ [readEvent (xmlFile c)])%list in
            match inputAnswer env (xmlFile c) t1 with
            | Err e => (Some (inputLabel (xmlFile c) ++ e), t2)
            | Ok xmlData =>
                match Unmarshal env xmlData with
                | Err e => (Some ("parse XML: " ++ e), t2)
                | Ok testsuites =>
                    let '(failed, t3) :=
                      submitResults env reporter testsuites t2 in
                    (match failed with
                     | Some e => Some ("submit results: " ++ e)
                     | None => None
                     end, t3)
                end
            end
        end
    end.
Proof.
  unfold run. destruct (parseBaggage env c) as [sessionBaggage|e];
    [|reflexivity].
  unfold bind at 1.
  destruct (createSession env (reporterOf c sessionBaggage) t)
    as [[reporter [e|]] t1]; [reflexivity|].
  unfold bind at 1. rewrite readInput_once.
  destruct (inputAnswer env (xmlFile c) t1) as [xmlData|e]; [|reflexivity].
  destruct (Unmarshal env xmlData) as [testsuites|e]; [|reflexivity].
  unfold bind, ret.
  destruct (submitResults env reporter testsuites _) as [[e|] t3];
    reflexivity.
Qed.

(** What [createSession] adds to the trace: nothing when it fails before
    the request, else the request first and no other request. *)
Lemma createSession_trace (env : Env) (r : Reporter.t) (t : list event) :
  exists new,
    snd (createSession env r t) = (t ++ new)%list
    /\ ((new = [] /\ exists e, snd (fst (createSession env r t)) = Some e)
        \/ exists body rest,
             marshalSession env (sessionRequest r) = Ok body
             /\ new = EvDo (sessionHttpRequest r body) :: rest
             /\ requests rest = []).
Proof.
  destruct (marshalSession env (sessionRequest r)) as [body|e] eqn:Hbody.
  2:{ exists []. rewrite (proj1 (createSession_unsent env r t) e Hbody).
      rewrite List.app_nil_r. cbn [fst snd]. eauto. }
  destruct (checkURL env (sessionsURL r)) as [e|] eqn:Hurl.
  { exists [].
    rewrite (proj2 (createSession_unsent env r t) body e Hbody Hurl).
    rewrite List.app_nil_r. cbn [fst snd]. eauto. }
  rewrite (createSession_sent env r t body Hbody Hurl). cbv zeta.
  destruct (clientDo env t (sessionHttpRequest r body)) as [resp|e];
    [|eexists; split; [reflexivity | right; eauto]].
  destruct (StatusCode resp =? StatusCreated)%Z;
    [|eexists; split; [reflexivity | right; eauto]].
  destruct (decodeSession env (RespBody resp)) as [sessionResp|e];
    eexists; (split; [reflexivity | right; eauto]).
Qed.

(** What [submitResults] adds to the trace: a log line, or one request
    that carries the marshalled batch, or nothing. *)
Lemma submitResults_trace (env : Env) (r : Reporter.t)
  (testsuites : TestSuites.t) (t : list event) :
  exists new,
    snd (submitResults env r testsuites t) = (t ++ new)%list
    /\ forall req, In (EvDo req) new ->
         exists body,
           marshalTestcases env
             {| TestcasesRequest.Testcases := buildTestcases r testsuites |}
           = Ok body
           /\ req = testcasesHttpRequest r body.
Proof.
  unfold submitResults, NewRequest, log, bind, perform, ret.
  destruct (List.length (buildTestcases r testsuites) =? 0)%nat.
  { eexists; split; [reflexivity|]. intros req [H|[]]. discriminate. }
  destruct (marshalTestcases env _) as [body|e] eqn:Hbody.
  2:{ exists []. rewrite List.app_nil_r. split; [reflexivity | intros ? []]. }
  destruct (checkURL env (testcasesURL r)) as [e|].
  { exists []. rewrite List.app_nil_r. split; [reflexivity | intros ? []]. }
  fold (testcasesHttpRequest r body).
  destruct (clientDo env t (testcasesHttpRequest r body)) as [resp|e].
  - destruct (StatusCode resp =? StatusCreated)%Z; cbn [negb snd].
    + rewrite <- List.app_assoc. eexists; split; [reflexivity|].
      intros req [[= <-]|[H|[]]]; [eauto | discriminate].
    + eexists; split; [reflexivity|]. intros req [[= <-]|[]]. eauto.
  - eexists; split; [reflexivity|]. intros req [[= <-]|[]]. eauto.
Qed.

(** A failed [createSession] ends [run] with its trace. *)
Lemma run_session_failed (env : Env) (c : Flags) (t t' : list event)
  (sessionBaggage : Baggage) (r' : Reporter.t) (msg : string) :
  parseBaggage env c = Ok sessionBaggage ->
  createSession env (reporterOf c sessionBaggage) t = ((r', Some msg), t') ->
  run env c t = (Some ("create session: " ++ msg), t').
Proof. intros Hbag Hcreate. now rewrite run_stages, Hbag, Hcreate. Qed.

(** Reading the input is no request. *)
Lemma readEvent_not_request (name : string) (req : Request) :
  readEvent name <> EvDo req.
Proof. unfold readEvent. now destruct (name =? "-"). Qed.

(** The two addresses differ. *)
Lemma sessionsURL_not_testcasesURL (r : Reporter.t) :
  sessionsURL r <> testcasesURL r.
Proof.
  unfold sessionsURL, testcasesURL. intros H.
  apply StringFacts.app_inv_head in H. discriminate.
Qed.

End PipelineFacts.

(** ** The batch *)

Module BatchFacts.

(** The loops of [submitResults] build one record per case: as many
    records as the report has cases, in the order of the suites and, within
    a suite, of its cases; a request [submitResults] sends carries that
    list, marshalled. *)
Lemma records_one_per_case (r : Reporter.t)
  (testsuites : TestSuites.t) :
  List.length (buildTestcases r testsuites) = caseCount testsuites
  /\ buildTestcases r testsuites = documentOrder r testsuites
  /\ map (fun record =>
            (TestcaseRequest.Testsuite record,
             TestcaseRequest.TestcaseName record))
       (buildTestcases r testsuites)
     = flat_map
         (fun suite =>
            map (fun tc => (TestSuite.Name suite, TestCase.Name tc))
              (TestSuite.TestCases suite))
         (TestSuites.TestSuites testsuites)
  /\ forall env t,
       exists new,
         snd (submitResults env r testsuites t) = (t ++ new)%list
         /\ forall req, In (EvDo req) new ->
              marshalTestcases env
                {| TestcasesRequest.Testcases := documentOrder r testsuites |}
              = Ok (Body req).
Proof.
  split; [apply NormalizerFacts.buildTestcases_length|].
  split; [apply NormalizerFacts.buildTestcases_documentOrder|].
  split.
  - rewrite NormalizerFacts.buildTestcases_documentOrder.
    unfold documentOrder.
    induction (TestSuites.TestSuites testsuites) as [|suite suites IH];
      [reflexivity|].
    cbn [flat_map]. rewrite map_app, IH, map_map. f_equal.
    apply map_ext. intros tc.
    now destruct (NormalizerFacts.caseRecord_names r suite tc)
      as (-> & -> & _).
  - intros env t.
    destruct (PipelineFacts.submitResults_trace env r testsuites t)
      as (new & Hnew & Hreq).
    exists new. split; [exact Hnew|]. intros req Hin.
    destruct (Hreq req Hin) as (body & Hbody & ->).
    now rewrite <- NormalizerFacts.buildTestcases_documentOrder.
Qed.

End BatchFacts.

(** C2: the status and the output of a record follow the first detail
    present, in the order failure, error, skipped; without any the case
    passed and the output is empty. *)
Theorem caseRecord_precedence (r : Reporter.t) (suite : TestSuite.t)
  (tc : TestCase.t) :
  let record := caseRecord r suite tc in
  (forall f, TestCase.Failure tc = Some f ->
     TestcaseRequest.Status record = "fail"
     /\ TestcaseRequest.Output record
        = "Failure: " ++ Failure.Message f ++ LF ++ Failure.Content f)
  /\ (forall e, TestCase.Failure tc = None -> TestCase.Error tc = Some e ->
        TestcaseRequest.Status record = "error"
        /\ TestcaseRequest.Output record
           = "Error: " ++ Error.Message e ++ LF ++ Error.Content e)
  /\ (forall s, TestCase.Failure tc = None -> TestCase.Error tc = None ->
        TestCase.Skipped tc = Some s ->
        TestcaseRequest.Status record = "skip"
        /\ TestcaseRequest.Output record = Skipped.Message s)
  /\ (TestCase.Failure tc = None -> TestCase.Error tc = None ->
      TestCase.Skipped tc = None ->
      TestcaseRequest.Status record = "pass"
      /\ TestcaseRequest.Output record = EmptyString)
  /\ (forall testsuites,
        In suite (TestSuites.TestSuites testsuites) ->
        In tc (TestSuite.TestCases suite) ->
        In record (buildTestcases r testsuites)).
Proof.
  intros record. unfold record, caseRecord, statusOutput.
  repeat split; intros; try (rewrite ?H, ?H0, ?H1; reflexivity).
  rewrite NormalizerFacts.buildTestcases_documentOrder.
  apply in_flat_map. exists suite. split; [assumption|].
  apply in_map_iff. now exists tc.
Qed.

(** C5: for a report without any case [submitResults] builds no record,
    logs that there is nothing to submit, sends no request and returns
    nil. *)
Theorem submitResults_no_cases (env : Env) (r : Reporter.t)
  (testsuites : TestSuites.t) (t : list event) :
  caseCount testsuites = 0 ->
  buildTestcases r testsuites = []
  /\ submitResults env r testsuites t
     = (None, (t ++ [EvLog ("No test results to submit" ++ LF)])%list)
  /\ requests (snd (submitResults env r testsuites t)) = requests t.
Proof.
  intros Hcount.
  assert (Hnil : buildTestcases r testsuites = []).
  { apply length_zero_iff_nil.
    now rewrite NormalizerFacts.buildTestcases_length. }
  assert (Hrun : submitResults env r testsuites t
                 = (None, (t ++ [EvLog ("No test results to submit" ++ LF)])%list)).
  { unfold submitResults. now rewrite Hnil. }
  rewrite Hrun. cbn [snd]. rewrite PipelineFacts.requests_app.
  cbn [requests]. now rewrite List.app_nil_r.
Qed.

Lemma submitResults_no_cases_witness :
  submitResults
    (Sample.world (Err "connection refused") (Err "unused") (Err "unused"))
    (reporterOf (Sample.flags "report.xml") None) Sample.noCases []
  = (None, [EvLog ("No test results to submit" ++ LF)]).
Proof.
  apply (submitResults_no_cases
           (Sample.world (Err "connection refused") (Err "unused")
              (Err "unused"))
           (reporterOf (Sample.flags "report.xml") None) Sample.noCases []).
  reflexivity.
Defined.

Module SessionFacts.

(** The session request carries the fixed description when the caller
    gave none and the caller's description otherwise, the other fields as
    given; a request [createSession] sends has the marshalled session
    request as its body. *)
Lemma description_marshalled (env : Env) (r : Reporter.t)
  (t : list event) :
  SessionRequest.Description (sessionRequest r)
  = (if Reporter.sessionDescription r =? EmptyString
     then "JUnit XML test report" else Reporter.sessionDescription r)
  /\ SessionRequest.Id (sessionRequest r) = Reporter.sessionId r
  /\ SessionRequest.Labels (sessionRequest r) = Reporter.sessionLabels r
  /\ SessionRequest.Baggage_ (sessionRequest r) = Reporter.sessionBaggage r
  /\ exists new,
       snd (createSession env r t) = (t ++ new)%list
       /\ forall req, In (EvDo req) new ->
            URL req = sessionsURL r
            /\ marshalSession env (sessionRequest r) = Ok (Body req).
Proof.
  unfold sessionRequest at 1 2 3 4. cbn [SessionRequest.Description].
  repeat split; try (destruct (Reporter.sessionDescription r =? EmptyString);
                     reflexivity).
  destruct (PipelineFacts.createSession_trace env r t)
    as (new & Hnew & Hcases).
  exists new. split; [exact Hnew|].
  destruct Hcases as [[-> _]|(body & rest & Hbody & -> & Hrest)].
  - intros req [].
  - intros req [[= <-]|Hin]; [now rewrite Hbody|].
    apply PipelineFacts.requests_In in Hin. rewrite Hrest in Hin.
    destruct Hin.
Qed.

End SessionFacts.

(** C6: [createSession] fails when the transport fails, when the status is
    not Created (the error then carries the status and the body received)
    and when the body of a Created response cannot be decoded, with three
    different messages; [run] then stops with the error labelled
    [create session], the session request being the only one sent. *)
Theorem createSession_failure_aborts (env : Env) (c : Flags)
  (t : list event) (sessionBaggage : Baggage) (body : string) :
  parseBaggage env c = Ok sessionBaggage ->
  let r := reporterOf c sessionBaggage in
  marshalSession env (sessionRequest r) = Ok body ->
  checkURL env (sessionsURL r) = None ->
  let httpReq := sessionHttpRequest r body in
  let failsWith (msg : string) :=
    createSession env r t = ((r, Some msg), (t ++ [EvDo httpReq])%list)
    /\ run env c t
       = (Some ("create session: " ++ msg), (t ++ [EvDo httpReq])%list)
    /\ requests (snd (run env c t)) = (requests t ++ [httpReq])%list in
  (forall e, clientDo env t httpReq = Err e ->
     failsWith ("send session request: " ++ e))
  /\ (forall resp, clientDo env t httpReq = Ok resp ->
        StatusCode resp <> StatusCreated ->
        failsWith ("create session failed: status="
                   ++ formatInt (StatusCode resp)
                   ++ " body=" ++ RespBody resp))
  /\ (forall resp e, clientDo env t httpReq = Ok resp ->
        StatusCode resp = StatusCreated ->
        decodeSession env (RespBody resp) = Err e ->
        failsWith ("decode session response: " ++ e))
  /\ URL httpReq = sessionsURL r
  /\ sessionsURL r <> testcasesURL r
  /\ (forall e status respBody e',
        "send session request: " ++ e
        <> "create session failed: status=" ++ status ++ " body=" ++ respBody
        /\ "send session request: " ++ e <> "decode session response: " ++ e'
        /\ "create session failed: status=" ++ status ++ " body=" ++ respBody
           <> "decode session response: " ++ e').
Proof.
  intros Hbag r Hbody Hurl httpReq failsWith.
  assert (Hfails : forall msg,
             createSession env r t = ((r, Some msg), (t ++ [EvDo httpReq])%list)
             -> failsWith msg).
  { intros msg Hcreate. unfold failsWith.
    pose proof (PipelineFacts.run_session_failed env c t _ _ r msg Hbag Hcreate)
      as Hrun.
    rewrite Hrun. cbn [snd]. rewrite PipelineFacts.requests_app.
    auto. }
  pose proof (PipelineFacts.createSession_sent env r t body Hbody Hurl)
    as Hsent.
  cbv zeta in Hsent. fold httpReq in Hsent.
  split; [|split; [|split; [|split; [|split]]]].
  - intros e He. apply Hfails. now rewrite Hsent, He.
  - intros resp Hresp Hstatus. apply Hfails. rewrite Hsent, Hresp.
    now apply Z.eqb_neq in Hstatus as ->.
  - intros resp e Hresp Hstatus Hdecode. apply Hfails.
    rewrite Hsent, Hresp, Hdecode.
    now apply Z.eqb_eq in Hstatus as ->.
  - reflexivity.
  - apply PipelineFacts.sessionsURL_not_testcasesURL.
  - intros e status respBody e'. repeat split; discriminate.
Qed.

Lemma createSession_failure_aborts_witness :
  run (Sample.world (Ok (mkResponse 500 "boom")) (Ok "unused") (Err "unused"))
    (Sample.flags "report.xml") []
  = (Some "create session: create session failed: status=500 body=boom",
     [EvDo (sessionHttpRequest (reporterOf (Sample.flags "report.xml") None)
              "{session}")]).
Proof.
  pose proof
    (createSession_failure_aborts
       (Sample.world (Ok (mkResponse 500 "boom")) (Ok "unused") (Err "unused"))
       (Sample.flags "report.xml") [] None "{session}"
       eq_refl eq_refl eq_refl) as H.
  cbv zeta in H. destruct H as (_ & H & _).
  apply (H (mkResponse 500 "boom") eq_refl). discriminate.
Defined.

(** C7: after a successful [createSession] the reporter holds the id decoded
    from the Created response, whatever id it held before; every record
    built from that reporter carries it, and what [run] sends afterwards is
    a batch built from that reporter. *)
Theorem createSession_resolves_id (env : Env) (r r' : Reporter.t)
  (t t' : list event) :
  createSession env r t = ((r', None), t') ->
  exists body resp sessionResp,
    clientDo env t (sessionHttpRequest r body) = Ok resp
    /\ StatusCode resp = StatusCreated
    /\ decodeSession env (RespBody resp) = Ok sessionResp
    /\ Reporter.sessionId r' = SessionResponse.Id sessionResp
    /\ (forall testsuites,
          Forall
            (fun record =>
               TestcaseRequest.SessionId record
               = SessionResponse.Id sessionResp)
            (buildTestcases r' testsuites))
    /\ (forall c sessionBaggage,
          parseBaggage env c = Ok sessionBaggage ->
          r = reporterOf c sessionBaggage ->
          forall req, In (EvDo req) (snd (run env c t)) ->
            In (EvDo req) t'
            \/ exists testsuites batch,
                 marshalTestcases env
                   {| TestcasesRequest.Testcases :=
                        buildTestcases r' testsuites |}
                 = Ok batch
                 /\ req = testcasesHttpRequest r' batch).
Proof.
  intros Hcreate.
  destruct (PipelineFacts.createSession_success env r r' t t' Hcreate)
    as (body & resp & sessionResp & _ & _ & Hdo & Hstatus & Hdecode & Hr' & _).
  exists body, resp, sessionResp.
  assert (Hid : Reporter.sessionId r' = SessionResponse.Id sessionResp)
    by now rewrite Hr'.
  repeat split; try assumption.
  - intros testsuites.
    rewrite NormalizerFacts.buildTestcases_documentOrder.
    apply Forall_flat_map, Forall_forall. intros suite _.
    apply Forall_map, Forall_forall. intros tc _.
    now destruct (NormalizerFacts.caseRecord_names r' suite tc)
      as (_ & _ & _ & ->).
  - intros c sessionBaggage Hbag -> req.
    rewrite PipelineFacts.run_stages, Hbag, Hcreate.
    destruct (inputAnswer env (xmlFile c) t') as [xmlData|e]; cbn [snd].
    2:{ intros [H|[H|[]]]%in_app_or; [now left|].
        now apply PipelineFacts.readEvent_not_request in H. }
    destruct (Unmarshal env xmlData) as [testsuites|e]; cbn [snd].
    2:{ intros [H|[H|[]]]%in_app_or; [now left|].
        now apply PipelineFacts.readEvent_not_request in H. }
    destruct (PipelineFacts.submitResults_trace env r' testsuites
                (t' ++ [readEvent (xmlFile c)])%list) as (new & Hnew & Hreq).
    destruct (submitResults env r' testsuites
                (t' ++ [readEvent (xmlFile c)])%list) as [failed t3].
    cbn [snd] in *. subst t3.
    intros [[H|[H|[]]]%in_app_or|H]%in_app_or.
    + now left.
    + now apply PipelineFacts.readEvent_not_request in H.
    + right. exists testsuites. destruct (Hreq req H) as (batch & ? & ?).
      now exists batch.
Qed.

Lemma createSession_resolves_id_witness :
  exists body resp sessionResp,
    clientDo
      (Sample.world (Ok (mkResponse 201 "s-1")) (Ok "unused") (Err "unused"))
      [] (sessionHttpRequest (reporterOf (Sample.flags "report.xml") None) body)
    = Ok resp
    /\ StatusCode resp = StatusCreated
    /\ decodeSession
         (Sample.world (Ok (mkResponse 201 "s-1")) (Ok "unused") (Err "unused"))
         (RespBody resp) = Ok sessionResp
    /\ Reporter.sessionId
         (setSessionId (reporterOf (Sample.flags "report.xml") None) "s-1")
       = SessionResponse.Id sessionResp.
Proof.
  destruct
    (createSession_resolves_id
       (Sample.world (Ok (mkResponse 201 "s-1")) (Ok "unused") (Err "unused"))
       (reporterOf (Sample.flags "report.xml") None)
       (setSessionId (reporterOf (Sample.flags "report.xml") None) "s-1")
       []
       [EvDo (sessionHttpRequest (reporterOf (Sample.flags "report.xml") None)
                "{session}");
        createdLine "s-1"]
       eq_refl)
    as (body & resp & sessionResp & H1 & H2 & H3 & H4 & _).
  exists body, resp, sessionResp. auto.
Defined.

(** ** The order of the stages *)

(** The session is opened before the input is touched: with a missing
    input file, and with input that is no XML, the run fails at the input
    after the session request has gone out. *)
Lemma run_input_failure_after_session :
  run Sample.missingFile (Sample.flags "missing.xml") []
  = (Some "read file missing.xml: open missing.xml: no such file or directory",
     [EvDo Sample.sessionPost; createdLine "s-1"; EvReadFile "missing.xml"])
  /\ run Sample.notXML (Sample.flags "missing.xml") []
     = (Some "parse XML: XML syntax error on line 1: unexpected EOF",
        [EvDo Sample.sessionPost; createdLine "s-1"; EvReadFile "missing.xml"])
  /\ requests
       (snd (run Sample.missingFile (Sample.flags "missing.xml") []))
     = [Sample.sessionPost]
  /\ URL Sample.sessionPost = "http://localhost:8080/api/v1/ingress/sessions".
Proof. repeat split. Qed.

Module StageFacts.

(** The first thing a run does to the world is the
    session request; the input is read and parsed only after
    [createSession] succeeded, so an input failure or a parse failure ends
    the run after the session request and before any submission. *)
Lemma session_first (env : Env) (c : Flags) (t : list event) :
  (exists new,
      snd (run env c t) = (t ++ new)%list
      /\ (new = []
          \/ exists req rest,
               new = EvDo req :: rest
               /\ Method req = "POST"
               /\ URL req
                  = strings.TrimSuffix (ingressEndpoint c) "/"
                    ++ "/api/v1/ingress/sessions"))
  /\ (forall sessionBaggage r' t1,
        parseBaggage env c = Ok sessionBaggage ->
        createSession env (reporterOf c sessionBaggage) t = ((r', None), t1) ->
        let t2 := (t1 ++ [readEvent (xmlFile c)])%list in
        exists req id,
          t1 = (t ++ [EvDo req; createdLine id])%list
          /\ URL req = sessionsURL (reporterOf c sessionBaggage)
          /\ requests t2 = (requests t ++ [req])%list
          /\ (forall e,
                inputAnswer env (xmlFile c) t1 = Err e ->
                run env c t = (Some (inputLabel (xmlFile c) ++ e), t2))
          /\ (forall xmlData e,
                inputAnswer env (xmlFile c) t1 = Ok xmlData ->
                Unmarshal env xmlData = Err e ->
                run env c t = (Some ("parse XML: " ++ e), t2))).
Proof.
  split.
  - rewrite PipelineFacts.run_stages.
    destruct (parseBaggage env c) as [sessionBaggage|e].
    2:{ exists []. rewrite List.app_nil_r. auto. }
    destruct (PipelineFacts.createSession_trace env
                (reporterOf c sessionBaggage) t) as (new & Hnew & Hcases).
    destruct (createSession env (reporterOf c sessionBaggage) t)
      as [[r' failed] t1].
    cbn [fst snd] in *. subst t1.
    destruct Hcases as [[-> [e ->]]|(body & rest & _ & -> & _)].
    { exists []. auto. }
    assert (Hmore : forall more (out : option string * list event),
               snd out
               = ((t ++ EvDo (sessionHttpRequest
                                (reporterOf c sessionBaggage) body) :: rest)
                    ++ more)%list ->
               exists new,
                 snd out = (t ++ new)%list
                 /\ (new = []
                     \/ exists req rest',
                          new = EvDo req :: rest'
                          /\ Method req = "POST"
                          /\ URL req
                             = strings.TrimSuffix (ingressEndpoint c) "/"
                               ++ "/api/v1/ingress/sessions")).
    { intros more out ->. rewrite <- List.app_assoc.
      eexists. split; [reflexivity|]. right.
      cbn [List.app]. eexists _, _. repeat split. }
    destruct failed as [e|];
      [apply (Hmore []); now rewrite List.app_nil_r|].
    destruct (inputAnswer env (xmlFile c) _) as [xmlData|e];
      [|now apply (Hmore [readEvent (xmlFile c)])].
    destruct (Unmarshal env xmlData) as [testsuites|e];
      [|now apply (Hmore [readEvent (xmlFile c)])].
    match goal with
    | |- context [submitResults env r' testsuites ?t2] =>
        destruct (PipelineFacts.submitResults_trace env r' testsuites t2)
          as (new' & Hnew' & _);
        destruct (submitResults env r' testsuites t2) as [failed t3]
    end.
    cbn [snd] in Hnew'. subst t3.
    apply (Hmore ([readEvent (xmlFile c)] ++ new')%list). cbn [snd].
    now rewrite <- !List.app_assoc.
  - intros sessionBaggage r' t1 Hbag Hcreate t2.
    destruct (PipelineFacts.createSession_success _ _ _ _ _ Hcreate)
      as (body & resp & sessionResp & _ & _ & _ & _ & _ & _ & Ht1).
    exists (sessionHttpRequest (reporterOf c sessionBaggage) body),
      (SessionResponse.Id sessionResp).
    split; [exact Ht1|]. split; [reflexivity|]. split.
    { unfold t2. rewrite Ht1, !PipelineFacts.requests_app.
      cbn [requests createdLine]. unfold readEvent.
      destruct (xmlFile c =? "-"); cbn [requests];
        now rewrite List.app_nil_r. }
    split.
    + intros e He. now rewrite PipelineFacts.run_stages, Hbag, Hcreate, He.
    + intros xmlData e Hdata He.
      now rewrite PipelineFacts.run_stages, Hbag, Hcreate, Hdata, He.
Qed.

End StageFacts.

(** * Further properties *)

(** ** The shape of a run *)

Module RunFacts.

Lemma inputReads_app (t u : list event) :
  inputReads (t ++ u) = inputReads t + inputReads u.
Proof.
  induction t as [|[req| |name|line] t IH]; simpl; congruence.
Qed.

Lemma readEvent_cases (name : string) :
  (name = "-" /\ readEvent name = EvReadStdin)
  \/ (name <> "-" /\ readEvent name = EvReadFile name).
Proof.
  unfold readEvent. destruct (String.eqb_spec name "-"); auto.
Qed.

(** [submitResults] ends before the request when there is a record and the
    body cannot be marshalled or the address is refused. *)
Lemma submitResults_unsent (env : Env) (r : Reporter.t)
  (testsuites : TestSuites.t) (t : list event) :
  buildTestcases r testsuites <> [] ->
  (forall e,
      marshalTestcases env
        {| TestcasesRequest.Testcases := buildTestcases r testsuites |}
      = Err e ->
      submitResults env r testsuites t
      = (Some ("marshal testcases request: " ++ e), t))
  /\ (forall body e,
        marshalTestcases env
          {| TestcasesRequest.Testcases := buildTestcases r testsuites |}
        = Ok body ->
        checkURL env (testcasesURL r) = Some e ->
        submitResults env r testsuites t
        = (Some ("create testcases request: " ++ e), t)).
Proof.
  intros Hsome. unfold submitResults, NewRequest.
  destruct (buildTestcases r testsuites) as [|record records];
    [congruence|].
  cbn [List.length Nat.eqb]. split.
  - now intros e ->.
  - now intros body e -> ->.
Qed.

(** [submitResults] once the request is built: one request, then the
    answer decides. *)
Lemma submitResults_sent (env : Env) (r : Reporter.t)
  (testsuites : TestSuites.t) (t : list event) (body : string) :
  buildTestcases r testsuites <> [] ->
  marshalTestcases env
    {| TestcasesRequest.Testcases := buildTestcases r testsuites |}
  = Ok body ->
  checkURL env (testcasesURL r) = None ->
  let httpReq := testcasesHttpRequest r body in
  submitResults env r testsuites t
  = match clientDo env t httpReq with
    | Err e =>
        (Some ("send testcases request: " ++ e), (t ++ [EvDo httpReq])%list)
    | Ok resp =>
        if (StatusCode resp =? StatusCreated)%Z then
          (None,
           (t ++ [EvDo httpReq;
                  submittedLine
                    (List.length (buildTestcases r testsuites))])%list)
        else
          (Some ("submit testcases failed: status="
                 ++ formatInt (StatusCode resp)
                 ++ " body=" ++ RespBody resp),
           (t ++ [EvDo httpReq])%list)
    end.
Proof.
  intros Hsome Hbody Hurl httpReq.
  unfold submitResults, NewRequest. rewrite Hbody, Hurl.
  destruct (buildTestcases r testsuites) as [|record records] eqn:Hrecords;
    [congruence|].
  cbn [List.length Nat.eqb].
  fold (testcasesHttpRequest r body). fold httpReq.
  unfold log, bind, perform, ret.
  destruct (clientDo env t httpReq) as [resp|e]; [|reflexivity].
  destruct (StatusCode resp =? StatusCreated)%Z; cbn [negb]; [|reflexivity].
  unfold submittedLine. cbn [List.length]. now rewrite <- List.app_assoc.
Qed.

(** Every way [submitResults] can extend the trace. *)
Lemma submitResults_shape (env : Env) (r : Reporter.t)
  (testsuites : TestSuites.t) (t : list event) :
  exists sub,
    snd (submitResults env r testsuites t) = (t ++ sub)%list
    /\ (sub = [] \/ sub = [nothingLine]
        \/ exists batch,
             marshalTestcases env
               {| TestcasesRequest.Testcases := buildTestcases r testsuites |}
             = Ok batch
             /\ (sub = [EvDo (testcasesHttpRequest r batch)]
                 \/ sub = [EvDo (testcasesHttpRequest r batch);
                           submittedLine
                             (List.length (buildTestcases r testsuites))])).
Proof.
  destruct (buildTestcases r testsuites) as [|record records] eqn:Hrecords.
  { exists [nothingLine]. split; [|auto].
    unfold submitResults. now rewrite Hrecords. }
  assert (Hsome : buildTestcases r testsuites <> []) by now rewrite Hrecords.
  rewrite <- Hrecords.
  destruct (marshalTestcases env
              {| TestcasesRequest.Testcases := buildTestcases r testsuites |})
    as [body|e] eqn:Hbody.
  2:{ exists []. rewrite List.app_nil_r.
      rewrite (proj1 (submitResults_unsent env r testsuites t Hsome) e Hbody).
      auto. }
  destruct (checkURL env (testcasesURL r)) as [e|] eqn:Hurl.
  { exists []. rewrite List.app_nil_r.
    rewrite (proj2 (submitResults_unsent env r testsuites t Hsome)
               body e Hbody Hurl).
    auto. }
  rewrite (submitResults_sent env r testsuites t body Hsome Hbody Hurl).
  cbv zeta.
  destruct (clientDo env t (testcasesHttpRequest r body)) as [resp|e];
    [|eexists; split; [reflexivity | right; right; eauto]].
  destruct (StatusCode resp =? StatusCreated)%Z;
    eexists; (split; [reflexivity | right; right; eauto]).
Qed.

(** Every way [run] can extend the trace. *)
Lemma run_shape (env : Env) (c : Flags) (t : list event) :
  exists new,
    snd (run env c t) = (t ++ new)%list
    /\ (new = []
        \/ exists sessionBaggage body,
             parseBaggage env c = Ok sessionBaggage
             /\ marshalSession env
                  (sessionRequest (reporterOf c sessionBaggage))
                = Ok body
             /\ (new = [EvDo (sessionHttpRequest
                                (reporterOf c sessionBaggage) body)]
                 \/ exists id sub,
                      new
                      = ([EvDo (sessionHttpRequest
                                  (reporterOf c sessionBaggage) body);
                          createdLine id; readEvent (xmlFile c)] ++ sub)%list
                      /\ (sub = [] \/ sub = [nothingLine]
                          \/ exists batch n,
                               let post :=
                                 testcasesHttpRequest
                                   (setSessionId
                                      (reporterOf c sessionBaggage) id) batch
                               in
                               sub = [EvDo post]
                               \/ sub = [EvDo post; submittedLine n]))).
Proof.
  rewrite PipelineFacts.run_stages.
  destruct (parseBaggage env c) as [sessionBaggage|e] eqn:Hbag.
  2:{ exists []. rewrite List.app_nil_r. auto. }
  destruct (createSession env (reporterOf c sessionBaggage) t)
    as [[r' failed] t1] eqn:Hcreate.
  destruct failed as [e|].
  { cbn [snd].
    destruct (marshalSession env (sessionRequest (reporterOf c sessionBaggage)))
      as [body|e'] eqn:Hbody.
    2:{ rewrite (proj1 (PipelineFacts.createSession_unsent env
                          (reporterOf c sessionBaggage) t) e' Hbody)
          in Hcreate.
        injection Hcreate as _ _ <-. exists []. rewrite List.app_nil_r. auto. }
    destruct (checkURL env (sessionsURL (reporterOf c sessionBaggage)))
      as [e'|] eqn:Hurl.
    { rewrite (proj2 (PipelineFacts.createSession_unsent env
                        (reporterOf c sessionBaggage) t) body e' Hbody Hurl)
        in Hcreate.
      injection Hcreate as _ _ <-. exists []. rewrite List.app_nil_r. auto. }
    rewrite (PipelineFacts.createSession_sent env
               (reporterOf c sessionBaggage) t body Hbody Hurl) in Hcreate.
    cbv zeta in Hcreate.
    assert (Ht1 : t1
                  = (t ++ [EvDo (sessionHttpRequest
                                   (reporterOf c sessionBaggage) body)])%list).
    { destruct (clientDo env t _) as [resp|e']; [|congruence].
      destruct (StatusCode resp =? StatusCreated)%Z; [|congruence].
      destruct (decodeSession env (RespBody resp)); [discriminate|].
      congruence. }
    eexists. split; [exact Ht1|]. right.
    exists sessionBaggage, body. auto. }
  destruct (PipelineFacts.createSession_success _ _ _ _ _ Hcreate)
    as (body & resp & sessionResp & Hbody & _ & _ & _ & _ & -> & ->).
  assert (Hsub : forall sub (out : option string * list event),
             snd out
             = (((t ++ [EvDo (sessionHttpRequest
                                (reporterOf c sessionBaggage) body);
                        createdLine (SessionResponse.Id sessionResp)])
                   ++ [readEvent (xmlFile c)]) ++ sub)%list ->
             exists new,
               snd out = (t ++ new)%list
               /\ new
                  = ([EvDo (sessionHttpRequest
                              (reporterOf c sessionBaggage) body);
                      createdLine (SessionResponse.Id sessionResp);
                      readEvent (xmlFile c)] ++ sub)%list).
  { intros sub out ->. eexists. split; [|reflexivity].
    now rewrite <- !List.app_assoc. }
  assert (Hdone : forall sub (out : option string * list event),
             snd out
             = (((t ++ [EvDo (sessionHttpRequest
                                (reporterOf c sessionBaggage) body);
                        createdLine (SessionResponse.Id sessionResp)])
                   ++ [readEvent (xmlFile c)]) ++ sub)%list ->
             (sub = [] \/ sub = [nothingLine]
              \/ exists batch n,
                   let post :=
                     testcasesHttpRequest
                       (setSessionId (reporterOf c sessionBaggage)
                          (SessionResponse.Id sessionResp)) batch in
                   sub = [EvDo post] \/ sub = [EvDo post; submittedLine n]) ->
             exists new,
               snd out = (t ++ new)%list
               /\ (new = []
                   \/ exists bag body',
                        Ok sessionBaggage = Ok bag
                        /\ marshalSession env (sessionRequest (reporterOf c bag))
                           = Ok body'
                        /\ (new = [EvDo (sessionHttpRequest
                                           (reporterOf c bag) body')]
                            \/ exists id sub',
                                 new
                                 = ([EvDo (sessionHttpRequest
                                             (reporterOf c bag) body');
                                     createdLine id; readEvent (xmlFile c)]
                                      ++ sub')%list
                                 /\ (sub' = [] \/ sub' = [nothingLine]
                                     \/ exists batch n,
                                          let post :=
                                            testcasesHttpRequest
                                              (setSessionId
                                                 (reporterOf c bag) id) batch in
                                          sub' = [EvDo post]
                                          \/ sub' = [EvDo post;
                                                     submittedLine n])))).
  { intros sub out Hout Hcases.
    destruct (Hsub sub out Hout) as (new & Hnew & ->).
    eexists. split; [exact Hnew|]. right.
    exists sessionBaggage, body. split; [reflexivity|].
    split; [exact Hbody|]. right.
    now exists (SessionResponse.Id sessionResp), sub. }
  destruct (inputAnswer env (xmlFile c) _) as [xmlData|e].
  2:{ apply (Hdone []); [now rewrite List.app_nil_r | auto]. }
  destruct (Unmarshal env xmlData) as [testsuites|e].
  2:{ apply (Hdone []); [now rewrite List.app_nil_r | auto]. }
  cbv zeta.
  match goal with
  | |- context [submitResults env ?r' testsuites ?t2] =>
      destruct (submitResults_shape env r' testsuites t2)
        as (sub & Hsubmit & Hcases);
      destruct (submitResults env r' testsuites t2) as [failed t3]
  end.
  cbn [snd] in Hsubmit. subst t3.
  apply (Hdone sub); [reflexivity|].
  destruct Hcases as [->|[->|(batch & _ & Hcases)]]; auto.
  right. right. exists batch, (List.length (buildTestcases
    (setSessionId (reporterOf c sessionBaggage)
       (SessionResponse.Id sessionResp)) testsuites)).
  exact Hcases.
Qed.

End RunFacts.

(** ** Submitting *)

(** X1: with at least one case and the request built, [submitResults]
    fails when the transport fails and when the status is not Created (the
    error then carries the status and the body received); in both cases
    the one request it sent went to the testcases address with the
    marshalled batch. *)
Theorem submitResults_failures (env : Env) (r : Reporter.t)
  (testsuites : TestSuites.t) (t : list event) (body : string) :
  caseCount testsuites <> 0 ->
  marshalTestcases env
    {| TestcasesRequest.Testcases := buildTestcases r testsuites |}
  = Ok body ->
  checkURL env (testcasesURL r) = None ->
  let httpReq := testcasesHttpRequest r body in
  (forall e, clientDo env t httpReq = Err e ->
     submitResults env r testsuites t
     = (Some ("send testcases request: " ++ e), (t ++ [EvDo httpReq])%list))
  /\ (forall resp, clientDo env t httpReq = Ok resp ->
        StatusCode resp <> StatusCreated ->
        submitResults env r testsuites t
        = (Some ("submit testcases failed: status="
                 ++ formatInt (StatusCode resp)
                 ++ " body=" ++ RespBody resp),
           (t ++ [EvDo httpReq])%list))
  /\ URL httpReq = testcasesURL r
  /\ Body httpReq = body.
Proof.
  intros Hcount Hbody Hurl httpReq.
  assert (Hsome : buildTestcases r testsuites <> []).
  { intros Hnil. apply Hcount.
    now rewrite <- (NormalizerFacts.buildTestcases_length r), Hnil. }
  pose proof (RunFacts.submitResults_sent env r testsuites t body
                Hsome Hbody Hurl) as Hsent.
  cbv zeta in Hsent. fold httpReq in Hsent.
  split; [|split; [|split; reflexivity]].
  - intros e He. now rewrite Hsent, He.
  - intros resp Hresp Hstatus. rewrite Hsent, Hresp.
    now apply Z.eqb_neq in Hstatus as ->.
Qed.

Lemma submitResults_failures_witness :
  submitResults Fixture.rejecting Fixture.resolved Fixture.oneCase []
  = (Some "submit testcases failed: status=500 body=boom",
     [EvDo (testcasesHttpRequest Fixture.resolved "{testcases}")]).
Proof.
  assert (Hcount : caseCount Fixture.oneCase <> 0) by discriminate.
  pose proof
    (submitResults_failures Fixture.rejecting Fixture.resolved
       Fixture.oneCase [] "{testcases}" Hcount eq_refl eq_refl) as H.
  cbv zeta in H. destruct H as (_ & H & _).
  apply (H (mkResponse 500 "boom") eq_refl). discriminate.
Defined.

(** X2: with at least one case, the request built and the answer Created,
    [submitResults] returns nil after one request and one log line that
    gives the number of cases of the report. *)
Theorem submitResults_accepted (env : Env) (r : Reporter.t)
  (testsuites : TestSuites.t) (t : list event) (body : string)
  (resp : Response) :
  caseCount testsuites <> 0 ->
  marshalTestcases env
    {| TestcasesRequest.Testcases := buildTestcases r testsuites |}
  = Ok body ->
  checkURL env (testcasesURL r) = None ->
  clientDo env t (testcasesHttpRequest r body) = Ok resp ->
  StatusCode resp = StatusCreated ->
  submitResults env r testsuites t
  = (None,
     (t ++ [EvDo (testcasesHttpRequest r body);
            submittedLine (caseCount testsuites)])%list).
Proof.
  intros Hcount Hbody Hurl Hresp Hstatus.
  assert (Hsome : buildTestcases r testsuites <> []).
  { intros Hnil. apply Hcount.
    now rewrite <- (NormalizerFacts.buildTestcases_length r), Hnil. }
  rewrite (RunFacts.submitResults_sent env r testsuites t body
             Hsome Hbody Hurl).
  cbv zeta. rewrite Hresp.
  apply Z.eqb_eq in Hstatus as ->.
  now rewrite NormalizerFacts.buildTestcases_length.
Qed.

Lemma submitResults_accepted_witness :
  submitResults Fixture.accepting Fixture.resolved Fixture.oneCase []
  = (None,
     [EvDo (testcasesHttpRequest Fixture.resolved "{testcases}");
      EvLog ("Submitted 1 test results" ++ LF)]).
Proof.
  apply (submitResults_accepted Fixture.accepting Fixture.resolved
           Fixture.oneCase [] "{testcases}" (mkResponse 201 "s-1"));
    try reflexivity.
  discriminate.
Defined.

(** ** Before a request goes out *)

(** X3: [createSession] leaves the trace as it is exactly when the session
    request cannot be marshalled or [http.NewRequest] refuses the address;
    it then returns an error and the reporter unchanged. *)
Theorem createSession_sends_nothing (env : Env) (r : Reporter.t)
  (t : list event) :
  (snd (createSession env r t) = t
   <-> (exists e, marshalSession env (sessionRequest r) = Err e)
       \/ (exists e, checkURL env (sessionsURL r) = Some e))
  /\ (snd (createSession env r t) = t ->
      fst (fst (createSession env r t)) = r
      /\ exists e, snd (fst (createSession env r t)) = Some e).
Proof.
  assert (Hgrows : forall (u : list event) (ev : event) (rest : list event),
             (u ++ ev :: rest)%list <> u).
  { intros u ev rest H. apply (f_equal (@List.length event)) in H.
    rewrite length_app in H. simpl in H. lia. }
  destruct (marshalSession env (sessionRequest r)) as [body|e] eqn:Hbody.
  2:{ rewrite (proj1 (PipelineFacts.createSession_unsent env r t) e Hbody).
      cbn [fst snd]. repeat split; eauto. }
  destruct (checkURL env (sessionsURL r)) as [e|] eqn:Hurl.
  { rewrite (proj2 (PipelineFacts.createSession_unsent env r t)
               body e Hbody Hurl).
    cbn [fst snd]. repeat split; eauto. }
  destruct (PipelineFacts.createSession_trace env r t)
    as (new & Hnew & [[-> [e He]]|(body' & rest & _ & -> & _)]).
  - exfalso.
    rewrite (PipelineFacts.createSession_sent env r t body Hbody Hurl) in Hnew.
    cbv zeta in Hnew. rewrite List.app_nil_r in Hnew.
    destruct (clientDo env t _) as [resp|e'];
      [destruct (StatusCode resp =? StatusCreated)%Z;
       [destruct (decodeSession env (RespBody resp))|]|];
      cbn [snd] in Hnew; now apply Hgrows in Hnew.
  - rewrite Hnew. split.
    + split; [intros H; now apply Hgrows in H|].
      intros [[e [=]]|[e [=]]].
    + intros H. now apply Hgrows in H.
Qed.

(** X4: [createSession] changes nothing of the reporter but the session
    id, and not even that when it fails. *)
Theorem createSession_keeps_configuration (env : Env) (r : Reporter.t)
  (t : list event) :
  let r' := fst (fst (createSession env r t)) in
  Reporter.endpoint r' = Reporter.endpoint r
  /\ Reporter.apiKey r' = Reporter.apiKey r
  /\ Reporter.sessionDescription r' = Reporter.sessionDescription r
  /\ Reporter.sessionLabels r' = Reporter.sessionLabels r
  /\ Reporter.sessionBaggage r' = Reporter.sessionBaggage r
  /\ (snd (fst (createSession env r t)) <> None -> r' = r).
Proof.
  destruct (createSession env r t) as [[r' [e|]] t'] eqn:Hcreate;
    cbn [fst snd].
  - assert (Hr : r' = r).
    { destruct (marshalSession env (sessionRequest r)) as [body|e'] eqn:Hbody.
      2:{ rewrite (proj1 (PipelineFacts.createSession_unsent env r t)
                     e' Hbody) in Hcreate. congruence. }
      destruct (checkURL env (sessionsURL r)) as [e'|] eqn:Hurl.
      { rewrite (proj2 (PipelineFacts.createSession_unsent env r t)
                   body e' Hbody Hurl) in Hcreate. congruence. }
      rewrite (PipelineFacts.createSession_sent env r t body Hbody Hurl)
        in Hcreate.
      cbv zeta in Hcreate.
      destruct (clientDo env t _) as [resp|e']; [|congruence].
      destruct (StatusCode resp =? StatusCreated)%Z; [|congruence].
      destruct (decodeSession env (RespBody resp)); congruence. }
    subst r'. repeat split.
  - destruct (PipelineFacts.createSession_success _ _ _ _ _ Hcreate)
      as (_ & _ & sessionResp & _ & _ & _ & _ & _ & -> & _).
    repeat split. congruence.
Qed.

(** ** What a run sends and reads *)

Module TraceFacts.

(** The events up to the read of the input hold one request and one
    read. *)
Lemma requests_upto_read (s : Request) (id name : string)
  (sub : list event) :
  requests ([EvDo s; createdLine id; readEvent name] ++ sub) = s :: requests sub.
Proof. unfold readEvent. now destruct (name =? "-"). Qed.

Lemma inputReads_upto_read (s : Request) (id name : string)
  (sub : list event) :
  inputReads ([EvDo s; createdLine id; readEvent name] ++ sub)
  = S (inputReads sub).
Proof. unfold readEvent. now destruct (name =? "-"). Qed.

(** A failed [createSession] has sent nothing or the session request. *)
Lemma createSession_failed_shape (env : Env) (r r' : Reporter.t)
  (t t1 : list event) (e : string) :
  createSession env r t = ((r', Some e), t1) ->
  t1 = t
  \/ exists body,
       marshalSession env (sessionRequest r) = Ok body
       /\ t1 = (t ++ [EvDo (sessionHttpRequest r body)])%list.
Proof.
  intros Hcreate.
  destruct (marshalSession env (sessionRequest r)) as [body|e'] eqn:Hbody.
  2:{ rewrite (proj1 (PipelineFacts.createSession_unsent env r t) e' Hbody)
        in Hcreate. left. congruence. }
  destruct (checkURL env (sessionsURL r)) as [e'|] eqn:Hurl.
  { rewrite (proj2 (PipelineFacts.createSession_unsent env r t)
               body e' Hbody Hurl) in Hcreate. left. congruence. }
  rewrite (PipelineFacts.createSession_sent env r t body Hbody Hurl)
    in Hcreate.
  cbv zeta in Hcreate. right. exists body. split; [reflexivity|].
  destruct (clientDo env t _) as [resp|e']; [|congruence].
  destruct (StatusCode resp =? StatusCreated)%Z; [|congruence].
  destruct (decodeSession env (RespBody resp)); congruence.
Qed.

(** [submitResults] returns nil only with nothing to submit or with the
    batch accepted. *)
Lemma submitResults_nil (env : Env) (r : Reporter.t)
  (testsuites : TestSuites.t) (t t' : list event) :
  submitResults env r testsuites t = (None, t') ->
  caseCount testsuites = 0
  \/ exists batch resp,
       marshalTestcases env
         {| TestcasesRequest.Testcases := buildTestcases r testsuites |}
       = Ok batch
       /\ clientDo env t (testcasesHttpRequest r batch) = Ok resp
       /\ StatusCode resp = StatusCreated.
Proof.
  intros Hsubmit.
  destruct (buildTestcases r testsuites) as [|record records] eqn:Hrecords.
  { left. now rewrite <- (NormalizerFacts.buildTestcases_length r), Hrecords. }
  assert (Hsome : buildTestcases r testsuites <> []) by now rewrite Hrecords.
  rewrite <- Hrecords. right.
  destruct (marshalTestcases env
              {| TestcasesRequest.Testcases := buildTestcases r testsuites |})
    as [body|e] eqn:Hbody.
  2:{ rewrite (proj1 (RunFacts.submitResults_unsent env r testsuites t Hsome)
                 e Hbody) in Hsubmit. discriminate. }
  destruct (checkURL env (testcasesURL r)) as [e|] eqn:Hurl.
  { rewrite (proj2 (RunFacts.submitResults_unsent env r testsuites t Hsome)
               body e Hbody Hurl) in Hsubmit. discriminate. }
  rewrite (RunFacts.submitResults_sent env r testsuites t body
             Hsome Hbody Hurl) in Hsubmit.
  cbv zeta in Hsubmit.
  destruct (clientDo env t (testcasesHttpRequest r body)) as [resp|e] eqn:Hdo;
    [|discriminate].
  destruct (StatusCode resp =? StatusCreated)%Z eqn:Hstatus; [|discriminate].
  exists body, resp. apply Z.eqb_eq in Hstatus. auto.
Qed.

(** The requests and the reads of a run. *)
Lemma run_requests (env : Env) (c : Flags) (t : list event) :
  exists new,
    snd (run env c t) = (t ++ new)%list
    /\ ((requests new = [] /\ inputReads new = 0)
        \/ exists sessionBaggage body,
             parseBaggage env c = Ok sessionBaggage
             /\ marshalSession env
                  (sessionRequest (reporterOf c sessionBaggage))
                = Ok body
             /\ ((requests new
                  = [sessionHttpRequest (reporterOf c sessionBaggage) body]
                  /\ inputReads new <= 1)
                 \/ exists id batch,
                      requests new
                      = [sessionHttpRequest (reporterOf c sessionBaggage) body;
                         testcasesHttpRequest
                           (setSessionId (reporterOf c sessionBaggage) id)
                           batch]
                      /\ inputReads new = 1)).
Proof.
  destruct (RunFacts.run_shape env c t) as (new & Hnew & Hshape).
  exists new. split; [exact Hnew|].
  destruct Hshape as [->|(bag & body & Hbag & Hbody & Hshape)]; [now left|].
  right. exists bag, body. split; [exact Hbag|]. split; [exact Hbody|].
  destruct Hshape as [->|(id & sub & -> & Hsub)]; [left; simpl; auto|].
  rewrite requests_upto_read, inputReads_upto_read.
  destruct Hsub as [->|[->|(batch & n & [->| ->])]]; cbn.
  - left. auto.
  - left. auto.
  - right. now exists id, batch.
  - right. now exists id, batch.
Qed.

End TraceFacts.

(** X5: every request of a run is a POST that carries the API key of the
    flags in [x-api-key] and the JSON content type, and goes to the
    sessions or to the testcases address under the endpoint of the flags,
    one trailing slash removed. *)
Theorem run_requests_are_ingress_posts (env : Env) (c : Flags)
  (t : list event) :
  exists new,
    snd (run env c t) = (t ++ new)%list
    /\ forall req, In (EvDo req) new ->
         Method req = "POST"
         /\ Header req = ingressHeader (ingressAPIKey c)
         /\ (URL req
             = strings.TrimSuffix (ingressEndpoint c) "/"
               ++ "/api/v1/ingress/sessions"
             \/ URL req
                = strings.TrimSuffix (ingressEndpoint c) "/"
                  ++ "/api/v1/ingress/testcases").
Proof.
  destruct (TraceFacts.run_requests env c t) as (new & Hnew & Hreqs).
  exists new. split; [exact Hnew|]. intros req Hin.
  apply PipelineFacts.requests_In in Hin.
  destruct Hreqs as [[Hnone _]|(bag & body & _ & _ & Hreqs)].
  { rewrite Hnone in Hin. destruct Hin. }
  destruct Hreqs as [[Hone _]|(id & batch & Htwo & _)].
  - rewrite Hone in Hin. destruct Hin as [<-|[]]. repeat split. now left.
  - rewrite Htwo in Hin. destruct Hin as [<-|[<-|[]]]; repeat split; auto.
Qed.

(** X6: a run sends at most two requests: the session request first and,
    if there is a second, the testcases request. *)
Theorem run_at_most_two_requests (env : Env) (c : Flags) (t : list event) :
  exists new,
    snd (run env c t) = (t ++ new)%list
    /\ List.length (requests new) <= 2
    /\ (forall first rest, requests new = first :: rest ->
          URL first
          = strings.TrimSuffix (ingressEndpoint c) "/"
            ++ "/api/v1/ingress/sessions"
          /\ forall second, In second rest ->
               URL second
               = strings.TrimSuffix (ingressEndpoint c) "/"
                 ++ "/api/v1/ingress/testcases").
Proof.
  destruct (TraceFacts.run_requests env c t) as (new & Hnew & Hreqs).
  exists new. split; [exact Hnew|].
  destruct Hreqs as [[-> _]|(bag & body & _ & _ & Hreqs)].
  { split; [simpl; lia | discriminate]. }
  destruct Hreqs as [[-> _]|(id & batch & -> & _)].
  - split; [simpl; lia|]. intros first rest [= <- <-].
    split; [reflexivity | intros second []].
  - split; [simpl; lia|]. intros first rest [= <- <-].
    split; [reflexivity|]. now intros second [<-|[]].
Qed.

(** X7: a run reads its input at most once: the file named by the flag, or
    standard input when the flag is [-]; and not at all when the session
    could not be created. *)
Theorem run_reads_input_once (env : Env) (c : Flags) (t : list event) :
  exists new,
    snd (run env c t) = (t ++ new)%list
    /\ inputReads new <= 1
    /\ (forall name, In (EvReadFile name) new ->
          name = xmlFile c /\ name <> "-")
    /\ (In EvReadStdin new -> xmlFile c = "-")
    /\ (forall sessionBaggage r' e t1,
          parseBaggage env c = Ok sessionBaggage ->
          createSession env (reporterOf c sessionBaggage) t
          = ((r', Some e), t1) ->
          inputReads new = 0).
Proof.
  destruct (RunFacts.run_shape env c t) as (new & Hnew & Hshape).
  exists new. split; [exact Hnew|].
  assert (Hfailed : forall sessionBaggage r' e t1,
             parseBaggage env c = Ok sessionBaggage ->
             createSession env (reporterOf c sessionBaggage) t
             = ((r', Some e), t1) ->
             inputReads new = 0).
  { intros bag r' e t1 Hbag Hcreate.
    rewrite (PipelineFacts.run_session_failed env c t t1 bag r' e
               Hbag Hcreate) in Hnew.
    cbn [snd] in Hnew.
    destruct (TraceFacts.createSession_failed_shape _ _ _ _ _ _ Hcreate)
      as [->|(body & _ & ->)].
    - rewrite <- (List.app_nil_r t) in Hnew at 1.
      now apply app_inv_head in Hnew as <-.
    - now apply app_inv_head in Hnew as <-. }
  destruct Hshape as [->|(bag & body & _ & _ & Hshape)].
  { repeat split; try (intros; contradiction); auto. }
  destruct Hshape as [->|(id & sub & -> & Hsub)].
  { split; [simpl; lia|]. split; [|split; [|exact Hfailed]].
    - intros name [H|[]]. discriminate.
    - intros [H|[]]. discriminate. }
  assert (Hnone : inputReads sub = 0
                  /\ (forall name, ~ In (EvReadFile name) sub)
                  /\ ~ In EvReadStdin sub).
  { destruct Hsub as [->|[->|(batch & n & [->| ->])]]; cbn;
      repeat split; try intros name; intuition discriminate. }
  destruct Hnone as (Hreads & Hfile & Hstdin).
  split.
  { rewrite TraceFacts.inputReads_upto_read. lia. }
  split; [|split; [|exact Hfailed]].
  - intros name [H|[H|[H|H]]]; try discriminate; [|now apply Hfile in H].
    destruct (RunFacts.readEvent_cases (xmlFile c)) as [[_ E]|[Hne E]];
      rewrite E in H; [discriminate|].
    injection H as <-. auto.
  - intros [H|[H|[H|H]]]; try discriminate; [|now apply Hstdin in H].
    destruct (RunFacts.readEvent_cases (xmlFile c)) as [[Heq _]|[_ E]];
      [exact Heq|].
    rewrite E in H. discriminate.
Qed.

(** ** The outcome of a run *)

(** X8: a run returns nil only when every stage succeeded: the baggage was
    read, the session created, the input read and parsed, and the report
    either had no case or its batch was answered with Created. *)
Theorem run_nil_means_done (env : Env) (c : Flags) (t t' : list event) :
  run env c t = (None, t') ->
  exists sessionBaggage r' t1 xmlData testsuites,
    parseBaggage env c = Ok sessionBaggage
    /\ createSession env (reporterOf c sessionBaggage) t = ((r', None), t1)
    /\ inputAnswer env (xmlFile c) t1 = Ok xmlData
    /\ Unmarshal env xmlData = Ok testsuites
    /\ submitResults env r' testsuites (t1 ++ [readEvent (xmlFile c)])%list
       = (None, t')
    /\ (caseCount testsuites = 0
        \/ exists batch resp,
             marshalTestcases env
               {| TestcasesRequest.Testcases := buildTestcases r' testsuites |}
             = Ok batch
             /\ clientDo env (t1 ++ [readEvent (xmlFile c)])%list
                  (testcasesHttpRequest r' batch)
                = Ok resp
             /\ StatusCode resp = StatusCreated).
Proof.
  rewrite PipelineFacts.run_stages.
  destruct (parseBaggage env c) as [sessionBaggage|e]; [|discriminate].
  destruct (createSession env (reporterOf c sessionBaggage) t)
    as [[r' [e|]] t1] eqn:Hcreate; [discriminate|].
  cbv zeta.
  destruct (inputAnswer env (xmlFile c) t1) as [xmlData|e] eqn:Hinput;
    [|discriminate].
  destruct (Unmarshal env xmlData) as [testsuites|e] eqn:Hparse;
    [|discriminate].
  destruct (submitResults env r' testsuites (t1 ++ [readEvent (xmlFile c)])%list)
    as [[e|] t3] eqn:Hsubmit; [discriminate|].
  intros [= <-].
  exists sessionBaggage, r', t1, xmlData, testsuites.
  split; [reflexivity|]. split; [exact Hcreate|]. split; [exact Hinput|].
  split; [exact Hparse|]. split; [exact Hsubmit|].
  exact (TraceFacts.submitResults_nil _ _ _ _ _ Hsubmit).
Qed.

Lemma run_nil_means_done_witness :
  exists sessionBaggage r' t1 xmlData testsuites,
    parseBaggage Fixture.accepting (Sample.flags "report.xml")
    = Ok sessionBaggage
    /\ createSession Fixture.accepting
         (reporterOf (Sample.flags "report.xml") sessionBaggage) []
       = ((r', None), t1)
    /\ inputAnswer Fixture.accepting "report.xml" t1 = Ok xmlData
    /\ Unmarshal Fixture.accepting xmlData = Ok testsuites
    /\ caseCount testsuites = 1.
Proof.
  destruct
    (run_nil_means_done Fixture.accepting (Sample.flags "report.xml") []
       [EvDo (sessionHttpRequest Fixture.reporter "{session}");
        createdLine "s-1"; EvReadFile "report.xml";
        EvDo (testcasesHttpRequest Fixture.resolved "{testcases}");
        submittedLine 1]
       eq_refl)
    as (bag & r' & t1 & xmlData & testsuites & H1 & H2 & H3 & H4 & _).
  exists bag, r', t1, xmlData, testsuites.
  repeat split; try assumption.
  cbv in H3. injection H3 as <-. cbv in H4. now injection H4 as <-.
Defined.

(** X9: when every stage succeeds and the report has a case, a run returns
    nil and does five things in this order: the session request, the log
    line of the session, the read of the input, the testcases request with
    the resolved session, the log line with the number of cases. *)
Theorem run_happy_path (env : Env) (c : Flags) (t : list event)
  (sessionBaggage : Baggage) (body batch xmlData : string)
  (resp resp' : Response) (sessionResp : SessionResponse.t)
  (testsuites : TestSuites.t) :
  parseBaggage env c = Ok sessionBaggage ->
  let r := reporterOf c sessionBaggage in
  let r' := setSessionId r (SessionResponse.Id sessionResp) in
  let t1 := (t ++ [EvDo (sessionHttpRequest r body);
                   createdLine (SessionResponse.Id sessionResp)])%list in
  let t2 := (t1 ++ [readEvent (xmlFile c)])%list in
  marshalSession env (sessionRequest r) = Ok body ->
  checkURL env (sessionsURL r) = None ->
  clientDo env t (sessionHttpRequest r body) = Ok resp ->
  StatusCode resp = StatusCreated ->
  decodeSession env (RespBody resp) = Ok sessionResp ->
  inputAnswer env (xmlFile c) t1 = Ok xmlData ->
  Unmarshal env xmlData = Ok testsuites ->
  caseCount testsuites <> 0 ->
  marshalTestcases env
    {| TestcasesRequest.Testcases := buildTestcases r' testsuites |}
  = Ok batch ->
  checkURL env (testcasesURL r') = None ->
  clientDo env t2 (testcasesHttpRequest r' batch) = Ok resp' ->
  StatusCode resp' = StatusCreated ->
  run env c t
  = (None,
     (t ++ [EvDo (sessionHttpRequest r body);
            createdLine (SessionResponse.Id sessionResp);
            readEvent (xmlFile c);
            EvDo (testcasesHttpRequest r' batch);
            submittedLine (caseCount testsuites)])%list).
Proof.
  intros Hbag r r' t1 t2 Hbody Hurl Hdo Hstatus Hdecode Hinput Hparse
    Hcount Hbatch Hurl' Hdo' Hstatus'.
  assert (Hcreate : createSession env r t = ((r', None), t1)).
  { rewrite (PipelineFacts.createSession_sent env r t body Hbody Hurl).
    cbv zeta. rewrite Hdo, Hdecode.
    now apply Z.eqb_eq in Hstatus as ->. }
  assert (Hsome : buildTestcases r' testsuites <> []).
  { intros Hnil. apply Hcount.
    now rewrite <- (NormalizerFacts.buildTestcases_length r'), Hnil. }
  rewrite PipelineFacts.run_stages, Hbag. fold r. rewrite Hcreate.
  cbv zeta. rewrite Hinput, Hparse. fold t2.
  rewrite (RunFacts.submitResults_sent env r' testsuites t2 batch
             Hsome Hbatch Hurl').
  cbv zeta. rewrite Hdo'. apply Z.eqb_eq in Hstatus' as ->.
  rewrite NormalizerFacts.buildTestcases_length.
  unfold t2, t1. now rewrite <- !List.app_assoc.
Qed.

Lemma run_happy_path_witness :
  run Fixture.accepting (Sample.flags "report.xml") []
  = (None,
     [EvDo (sessionHttpRequest Fixture.reporter "{session}");
      createdLine "s-1"; EvReadFile "report.xml";
      EvDo (testcasesHttpRequest Fixture.resolved "{testcases}");
      submittedLine 1]).
Proof.
  assert (Hparse :
            exists testsuites,
              Unmarshal Fixture.accepting Sample.malformedTimeXML
              = Ok testsuites /\ caseCount testsuites = 1)
    by (eexists; split; reflexivity).
  destruct Hparse as (testsuites & Hparse & Hcount).
  pose proof
    (run_happy_path Fixture.accepting (Sample.flags "report.xml") [] None
       "{session}" "{testcases}" Sample.malformedTimeXML
       (mkResponse 201 "s-1") (mkResponse 201 "s-1")
       {| SessionResponse.Id := "s-1" |} testsuites
       eq_refl eq_refl eq_refl eq_refl eq_refl eq_refl eq_refl Hparse) as H.
  cbv zeta in H. rewrite Hcount in H.
  apply H; [discriminate | reflexivity | reflexivity | reflexivity
           | reflexivity].
Defined.

(** X10: once the report is parsed, an error of [submitResults] ends the
    run under the label [submit results], with the trace [submitResults]
    left. *)
Theorem run_submit_failure (env : Env) (c : Flags) (t t1 t3 : list event)
  (sessionBaggage : Baggage) (r' : Reporter.t) (xmlData e : string)
  (testsuites : TestSuites.t) :
  parseBaggage env c = Ok sessionBaggage ->
  createSession env (reporterOf c sessionBaggage) t = ((r', None), t1) ->
  inputAnswer env (xmlFile c) t1 = Ok xmlData ->
  Unmarshal env xmlData = Ok testsuites ->
  submitResults env r' testsuites (t1 ++ [readEvent (xmlFile c)])%list
  = (Some e, t3) ->
  run env c t = (Some ("submit results: " ++ e), t3).
Proof.
  intros Hbag Hcreate Hinput Hparse Hsubmit.
  rewrite PipelineFacts.run_stages, Hbag, Hcreate.
  cbv zeta. now rewrite Hinput, Hparse, Hsubmit.
Qed.

Lemma run_submit_failure_witness :
  run Fixture.lateFailure (Sample.flags "report.xml") []
  = (Some "submit results: submit testcases failed: status=503 body=busy",
     [EvDo (sessionHttpRequest Fixture.reporter "{session}");
      createdLine "s-1"; EvReadFile "report.xml";
      EvDo (testcasesHttpRequest Fixture.resolved "{testcases}")]).
Proof.
  eapply (run_submit_failure Fixture.lateFailure (Sample.flags "report.xml")
            []
            [EvDo (sessionHttpRequest Fixture.reporter "{session}");
             createdLine "s-1"]
            _ None Fixture.resolved Sample.malformedTimeXML);
    [reflexivity | reflexivity | reflexivity | cbv; reflexivity
    | reflexivity].
Defined.

(** X11: a baggage flag that is not empty and cannot be decoded ends the
    run before anything is done: the error is labelled
    [parse session baggage] and the trace is as it was; an empty flag is
    never decoded and gives the nil map. *)
Theorem run_bad_baggage (env : Env) (c : Flags) (t : list event) :
  (forall e,
      sessionBaggageFlag c <> EmptyString ->
      unmarshalBaggage env (sessionBaggageFlag c) = Err e ->
      run env c t = (Some ("parse session baggage: " ++ e), t))
  /\ (sessionBaggageFlag c = EmptyString ->
      parseBaggage env c = Ok None
      /\ forall r' failed t1,
           createSession env (reporterOf c None) t = ((r', failed), t1) ->
           Reporter.sessionBaggage r' = None
           /\ SessionRequest.Baggage_ (sessionRequest (reporterOf c None))
              = None).
Proof.
  split.
  - intros e Hflag Hbad. rewrite PipelineFacts.run_stages.
    unfold parseBaggage. apply String.eqb_neq in Hflag. now rewrite Hflag, Hbad.
  - intros Hflag. unfold parseBaggage. rewrite Hflag. split; [reflexivity|].
    intros r' failed t1 Hcreate. split.
    + destruct failed as [e|].
      * destruct (marshalSession env (sessionRequest (reporterOf c None)))
          as [body|e'] eqn:Hbody.
        2:{ rewrite (proj1 (PipelineFacts.createSession_unsent env _ t)
                       e' Hbody) in Hcreate.
            now injection Hcreate as <- _ _. }
        destruct (checkURL env (sessionsURL (reporterOf c None)))
          as [e'|] eqn:Hurl.
        { rewrite (proj2 (PipelineFacts.createSession_unsent env _ t)
                     body e' Hbody Hurl) in Hcreate.
          now injection Hcreate as <- _ _. }
        rewrite (PipelineFacts.createSession_sent env _ t body Hbody Hurl)
          in Hcreate.
        cbv zeta in Hcreate.
        destruct (clientDo env t _) as [resp|e'];
          [|now injection Hcreate as <- _ _].
        destruct (StatusCode resp =? StatusCreated)%Z;
          [|now injection Hcreate as <- _ _].
        destruct (decodeSession env (RespBody resp));
          [discriminate | now injection Hcreate as <- _ _].
      * destruct (PipelineFacts.createSession_success _ _ _ _ _ Hcreate)
          as (_ & _ & sessionResp & _ & _ & _ & _ & _ & -> & _).
        reflexivity.
    + unfold sessionRequest. cbn [SessionRequest.Description].
      now destruct (Reporter.sessionDescription (reporterOf c None)
                    =? EmptyString).
Qed.

Lemma run_bad_baggage_witness :
  run Fixture.accepting Fixture.badBaggage []
  = (Some "parse session baggage: unexpected end of JSON input", []).
Proof.
  apply (proj1 (run_bad_baggage Fixture.accepting Fixture.badBaggage [])
           "unexpected end of JSON input");
    [discriminate | reflexivity].
Defined.

(** ** The labels read from the flag *)

Module LabelShape.
Import StringFacts.

Lemma prefix_app_r (p s b : string) :
  prefix p s = true -> prefix p (s ++ b) = true.
Proof.
  revert s; induction p as [|c p IH]; intros s H; [apply prefix_nil|].
  destruct s as [|d s]; simpl in *; [discriminate|].
  destruct (ascii_dec c d); [auto | discriminate].
Qed.

(** A string without an occurrence has none in its parts. *)
Lemma Index_none_r (a b sep : string) :
  strings.Index (a ++ b) sep = None -> strings.Index b sep = None.
Proof.
  induction a as [|c a IH]; [trivial|].
  cbn [append strings.Index]. unfold strings.HasPrefix.
  destruct (prefix sep (String c (a ++ b))); [discriminate|].
  destruct (strings.Index (a ++ b) sep); [discriminate | auto].
Qed.

Lemma Index_none_l (a b sep : string) :
  strings.Index (a ++ b) sep = None -> strings.Index a sep = None.
Proof.
  induction a as [|c a IH]; cbn [append].
  - intros H. cbn [strings.Index]. unfold strings.HasPrefix.
    destruct sep as [|d sep]; [|reflexivity].
    destruct b; discriminate.
  - cbn [strings.Index]. unfold strings.HasPrefix.
    destruct (prefix sep (String c (a ++ b))) eqn:E; [discriminate|].
    destruct (strings.Index (a ++ b) sep) eqn:E'; [discriminate|].
    intros _.
    destruct (prefix sep (String c a)) eqn:Ea.
    + apply (prefix_app_r _ _ b) in Ea. cbn [append] in Ea. congruence.
    + now rewrite IH.
Qed.

Lemma Index_none_mid (a b c sep : string) :
  strings.Index (a ++ b ++ c) sep = None -> strings.Index b sep = None.
Proof. intros H. apply Index_none_r in H. now apply Index_none_l in H. Qed.

(** A label of [parseLabelsSpec] is read from a token that is not blank. *)
Lemma label_token (labelsStr : string) (l : Label.t) :
  In l (parseLabelsSpec labelsStr) ->
  exists token,
    In token (strings.SplitSeq labelsStr ",")
    /\ strings.TrimSpace token <> EmptyString
    /\ l = labelOfToken (strings.TrimSpace token).
Proof.
  unfold parseLabelsSpec. intros H.
  apply in_map_iff in H as (trimmed & <- & H).
  apply filter_In in H as [H Hblank].
  apply in_map_iff in H as (token & <- & H).
  exists token. split; [exact H|]. split; [|reflexivity].
  apply String.eqb_neq. now destruct (strings.TrimSpace token =? EmptyString).
Qed.

(** White space at the end of a string stays there when bytes are put in
    front. *)
Lemma trailing_app (front s : string) :
  strings.trailingSpace s = true -> strings.trailingSpace (front ++ s) = true.
Proof.
  unfold strings.trailingSpace. rewrite StringsFacts.reverse_app.
  apply StringsFacts.leading_app.
Qed.

End LabelShape.

(** X12: [parseLabels] returns no label exactly when every token between
    the commas is blank; the empty string is such an input. *)
Theorem parseLabels_blank (labelsStr : string) :
  (parseLabels labelsStr = []
   <-> Forall (fun token => strings.TrimSpace token = EmptyString)
         (strings.SplitSeq labelsStr ","))
  /\ parseLabels EmptyString = [].
Proof.
  split; [|reflexivity].
  rewrite LabelFacts.parseLabels_refines. unfold parseLabelsSpec.
  induction (strings.SplitSeq labelsStr ",") as [|token tokens IH];
    cbn [map filter]; [split; [constructor | reflexivity]|].
  destruct (String.eqb_spec (strings.TrimSpace token) EmptyString) as [E|E];
    cbn [negb].
  - rewrite IH. split; [now constructor | now inversion 1].
  - cbn [map]. split; [discriminate | inversion 1; contradiction].
Qed.

(** X13: every label of [parseLabels] is read from one token of the flag
    that is not blank; its key holds no [=] and no comma, its value holds
    no comma, and there are no more labels than tokens. *)
Theorem parseLabels_fields (labelsStr : string) :
  List.length (parseLabels labelsStr)
  <= List.length (strings.SplitSeq labelsStr ",")
  /\ forall l, In l (parseLabels labelsStr) ->
       (exists token,
           In token (strings.SplitSeq labelsStr ",")
           /\ strings.TrimSpace token <> EmptyString
           /\ l = labelOfToken (strings.TrimSpace token))
       /\ strings.Index (Label.Key l) "=" = None
       /\ strings.Index (Label.Key l) "," = None
       /\ strings.Index (Label.Value l) "," = None.
Proof.
  rewrite LabelFacts.parseLabels_refines. split.
  - unfold parseLabelsSpec. rewrite length_map.
    etransitivity; [apply filter_length_le | now rewrite length_map].
  - intros l Hin.
    destruct (LabelShape.label_token _ _ Hin) as (token & Htoken & Hblank & ->).
    split; [now exists token|].
    assert (Hcomma : strings.Index (strings.TrimSpace token) "," = None).
    { destruct (StringsFacts.splitLoop_join "," ltac:(discriminate)
                  (S (length labelsStr)) labelsStr (le_n _)) as [_ Hall].
      rewrite Forall_forall in Hall. specialize (Hall token Htoken).
      destruct (StringsFacts.TrimSpace_split token)
        as [(pre & post & _ & _ & Hsplit) _].
      rewrite Hsplit in Hall at 1.
      exact (LabelShape.Index_none_mid _ _ _ _ Hall). }
    unfold labelOfToken.
    destruct (strings.Index (strings.TrimSpace token) "=") as [i|] eqn:E;
      cbn [Label.Key Label.Value].
    + pose proof (StringsFacts.Index_split _ _ _ E) as Hsplit.
      cbn [length] in Hsplit. rewrite Nat.add_1_r in Hsplit.
      rewrite Hsplit in Hcomma.
      split; [apply StringsFacts.Index_first; [discriminate | exact E]|].
      split; [exact (LabelShape.Index_none_l _ _ _ Hcomma)|].
      apply LabelShape.Index_none_r in Hcomma.
      exact (LabelShape.Index_none_r "=" _ _ Hcomma).
    + auto.
Qed.

(** X14: no key of [parseLabels] starts with white space and no value ends
    with white space; white space next to the [=] of a token is kept. *)
Theorem parseLabels_trimmed (labelsStr : string) :
  (forall l, In l (parseLabels labelsStr) ->
     strings.leadingSpace (Label.Key l) = false
     /\ strings.trailingSpace (Label.Value l) = false)
  /\ parseLabels "a = b"
     = [{| Label.Key := "a "; Label.Value := " b" |}].
Proof.
  split; [|reflexivity].
  rewrite LabelFacts.parseLabels_refines. intros l Hin.
  destruct (LabelShape.label_token _ _ Hin) as (token & _ & _ & ->).
  destruct (StringsFacts.TrimSpace_split token) as (_ & Hlead & Htrail).
  unfold labelOfToken.
  destruct (strings.Index (strings.TrimSpace token) "=") as [i|] eqn:E;
    cbn [Label.Key Label.Value]; [|now split].
  pose proof (StringsFacts.Index_split _ _ _ E) as Hsplit.
  cbn [length] in Hsplit. rewrite Nat.add_1_r in Hsplit. split.
  - destruct (strings.leadingSpace (strings.take i (strings.TrimSpace token)))
      eqn:Hkey; [|reflexivity].
    apply (StringsFacts.leading_app _ _ _
             ("=" ++ strings.drop (S i) (strings.TrimSpace token))) in Hkey.
    rewrite <- Hsplit in Hkey. unfold strings.leadingSpace in Hlead.
    congruence.
  - destruct (strings.trailingSpace
                (strings.drop (S i) (strings.TrimSpace token)))
      eqn:Hvalue; [|reflexivity].
    apply (LabelShape.trailing_app
             (strings.take i (strings.TrimSpace token) ++ "=")) in Hvalue.
    rewrite StringFacts.app_assoc, <- Hsplit in Hvalue. congruence.
Qed.

(** ** The endpoint *)

(** X15: the endpoint [NewReporter] stores is the endpoint given, or the
    endpoint given without its last byte when that is a slash; the other
    arguments are stored as given. *)
Theorem NewReporter_stores (endpoint apiKey sessionID description : string)
  (labels : list Label.t) (baggage : Baggage) :
  let r := NewReporter endpoint apiKey sessionID description labels baggage in
  (if strings.HasSuffix endpoint "/"
   then endpoint = Reporter.endpoint r ++ "/"
   else endpoint = Reporter.endpoint r)
  /\ Reporter.apiKey r = apiKey
  /\ Reporter.sessionId r = sessionID
  /\ Reporter.sessionDescription r = description
  /\ Reporter.sessionLabels r = labels
  /\ Reporter.sessionBaggage r = baggage.
Proof.
  cbn [NewReporter Reporter.endpoint Reporter.apiKey Reporter.sessionId
         Reporter.sessionDescription Reporter.sessionLabels
         Reporter.sessionBaggage].
  repeat split. unfold strings.TrimSuffix.
  destruct (strings.HasSuffix endpoint "/") eqn:E; [|reflexivity].
  unfold strings.HasSuffix in E. apply andb_prop in E as [_ E].
  apply String.eqb_eq in E. rewrite <- E at 2.
  clear E. generalize (length endpoint - length "/"). intros n.
  revert endpoint; induction n as [|n IH]; intros [|c s]; simpl;
    try reflexivity.
  now rewrite <- IH.
Qed.

(** ** From the document to the report *)

Module XmlFacts.

Lemma attrOr_step (default name : string) (a : xml.Attr)
  (attrs : list xml.Attr) :
  attrOr default name (a :: attrs)
  = attrOr (if xml.AttrName a =? name then xml.AttrValue a else default)
      name attrs.
Proof. reflexivity. Qed.

(** The attribute loop of [testcase]: each string field holds the last
    attribute of its name; the pointers are not touched. *)
Lemma testCaseAttr_fold (attrs : list xml.Attr) (v : TestCase.t) :
  let v' := fold_left xml.testCaseAttr attrs v in
  TestCase.Name v' = attrOr (TestCase.Name v) "name" attrs
  /\ TestCase.Classname v'
     = attrOr (TestCase.Classname v) "classname" attrs
  /\ TestCase.Time v' = attrOr (TestCase.Time v) "time" attrs
  /\ TestCase.Failure v' = TestCase.Failure v
  /\ TestCase.Error v' = TestCase.Error v
  /\ TestCase.Skipped v' = TestCase.Skipped v.
Proof.
  revert v; induction attrs as [|a attrs IH]; intros v; [now cbn|].
  cbn [fold_left]. rewrite !attrOr_step.
  destruct (IH (xml.testCaseAttr v a)) as (-> & -> & -> & -> & -> & ->).
  destruct a as [name value], v as [n cn tm f e sk].
  unfold xml.testCaseAttr. cbn [xml.AttrName xml.AttrValue].
  repeat
    match goal with
    | |- context [name =? ?lit] =>
        destruct (String.eqb_spec name lit) as [->|?]; cbn
    end;
    auto 10.
Qed.

(** The children loop of [testcase]: the strings are not touched; a
    pointer is set exactly when an element of its name is met. *)
Lemma testCaseChild_fold (children : list xml.Node) (v : TestCase.t) :
  let v' := fold_left xml.testCaseChild children v in
  TestCase.Name v' = TestCase.Name v
  /\ TestCase.Classname v' = TestCase.Classname v
  /\ present (TestCase.Failure v')
     = present (TestCase.Failure v) || hasElement "failure" children
  /\ present (TestCase.Error v')
     = present (TestCase.Error v) || hasElement "error" children
  /\ present (TestCase.Skipped v')
     = present (TestCase.Skipped v) || hasElement "skipped" children.
Proof.
  revert v; induction children as [|n children IH]; intros v.
  { unfold hasElement. cbn [fold_left existsb]. now rewrite !orb_false_r. }
  cbn [fold_left]. unfold hasElement. cbn [existsb].
  destruct (IH (xml.testCaseChild v n)) as (-> & -> & -> & -> & ->).
  fold (hasElement "failure" children) (hasElement "error" children)
    (hasElement "skipped" children).
  destruct n as [name attrs kids|text], v as [nm cn tm f e sk];
    cbn [xml.testCaseChild isElement]; [|cbn; auto 10].
  repeat
    match goal with
    | |- context [name =? ?lit] =>
        destruct (String.eqb_spec name lit) as [->|?]; cbn
    end;
    rewrite ?orb_true_r, ?orb_false_r; auto 10.
Qed.

(** The outcome of a case whose only [failure] element is given: the
    message is its last [message] attribute, the body its character
    data. *)
Lemma testCaseChild_failure (children : list xml.Node) (v : TestCase.t)
  (attrs : list xml.Attr) (kids : list xml.Node) :
  TestCase.Failure v = None ->
  elementsNamed "failure" children = [(attrs, kids)] ->
  TestCase.Failure (fold_left xml.testCaseChild children v)
  = Some {| Failure.Message := attrOr EmptyString "message" attrs;
            Failure.Type_ := attrOr EmptyString "type" attrs;
            Failure.Content := xml.charData kids |}.
Proof.
  assert (Hattrs : forall fattrs f,
             Failure.Message (fold_left xml.failureAttr fattrs f)
             = attrOr (Failure.Message f) "message" fattrs
             /\ Failure.Type_ (fold_left xml.failureAttr fattrs f)
                = attrOr (Failure.Type_ f) "type" fattrs).
  { induction fattrs as [|a fattrs IH]; intros f; [now cbn|].
    cbn [fold_left]. rewrite !attrOr_step.
    destruct (IH (xml.failureAttr f a)) as [-> ->].
    destruct a as [name value], f as [m ty ct].
    unfold xml.failureAttr. cbn [xml.AttrName xml.AttrValue].
    repeat
      match goal with
      | |- context [name =? ?lit] =>
          destruct (String.eqb_spec name lit) as [->|?]; cbn
      end;
      auto. }
  assert (Hkeep : forall rest w,
             elementsNamed "failure" rest = [] ->
             TestCase.Failure (fold_left xml.testCaseChild rest w)
             = TestCase.Failure w).
  { induction rest as [|n rest IH]; intros w Hnone; [reflexivity|].
    cbn [fold_left]. destruct n as [name fattrs fkids|text];
      cbn [elementsNamed] in Hnone; [|now rewrite IH].
    destruct (String.eqb_spec name "failure") as [->|Hname];
      [discriminate|].
    rewrite IH by exact Hnone. destruct w as [nm cn tm f e sk].
    cbn [xml.testCaseChild]. apply String.eqb_neq in Hname. rewrite Hname.
    now destruct (name =? "error"), (name =? "skipped"). }
  revert v; induction children as [|n children IH]; intros v Hnil Hone;
    [discriminate|].
  cbn [fold_left]. destruct n as [name fattrs fkids|text];
    cbn [elementsNamed] in Hone; [|now apply IH].
  destruct (String.eqb_spec name "failure") as [->|Hname].
  - injection Hone as -> -> Hrest. rewrite Hkeep by exact Hrest.
    destruct v as [nm cn tm f e sk]. cbn in Hnil. subst f.
    cbn [xml.testCaseChild String.eqb Ascii.eqb Bool.eqb TestCase.Failure].
    unfold xml.unmarshalFailure.
    now destruct (Hattrs attrs
                    (Failure.mk EmptyString EmptyString EmptyString))
      as [-> ->].
  - apply IH; [|exact Hone].
    destruct v as [nm cn tm f e sk]. cbn in Hnil. subst f.
    cbn [xml.testCaseChild]. apply String.eqb_neq in Hname. rewrite Hname.
    now destruct (name =? "error"), (name =? "skipped").
Qed.

(** One attribute of [testsuite], when it is accepted. *)
Lemma testSuiteAttr_ok (q : string -> string) (v v' : TestSuite.t)
  (a : xml.Attr) :
  xml.testSuiteAttr q v a = Ok v' ->
  TestSuite.Name v'
  = (if xml.AttrName a =? "name" then xml.AttrValue a else TestSuite.Name v)
  /\ TestSuite.Time v'
     = (if xml.AttrName a =? "time" then xml.AttrValue a
        else TestSuite.Time v)
  /\ TestSuite.Timestamp v'
     = (if xml.AttrName a =? "timestamp" then xml.AttrValue a
        else TestSuite.Timestamp v)
  /\ TestSuite.TestCases v' = TestSuite.TestCases v.
Proof.
  destruct a as [name value], v as [nm ts fs es sk tm stamp cases].
  unfold xml.testSuiteAttr. cbn [xml.AttrName xml.AttrValue].
  repeat
    match goal with
    | |- context [name =? ?lit] =>
        destruct (String.eqb_spec name lit) as [->|?]; cbn
    end;
    try destruct (xml.copyInt q value);
    intros [= <-]; cbn; auto.
Qed.

Lemma testSuiteAttrs_ok (q : string -> string) (attrs : list xml.Attr)
  (v v' : TestSuite.t) :
  xml.testSuiteAttrs q v attrs = Ok v' ->
  TestSuite.Name v' = attrOr (TestSuite.Name v) "name" attrs
  /\ TestSuite.Time v' = attrOr (TestSuite.Time v) "time" attrs
  /\ TestSuite.Timestamp v' = attrOr (TestSuite.Timestamp v) "timestamp" attrs
  /\ TestSuite.TestCases v' = TestSuite.TestCases v.
Proof.
  revert v; induction attrs as [|a attrs IH]; intros v;
    cbn [xml.testSuiteAttrs]; [now intros [= <-]|].
  destruct (xml.testSuiteAttr q v a) as [w|e] eqn:Hstep; [|discriminate].
  intros Hrest. rewrite !attrOr_step.
  destruct (testSuiteAttr_ok q v w a Hstep) as (<- & <- & <- & <-).
  now apply IH.
Qed.

(** The children loop of [testsuite]: one case per [testcase] element, in
    order. *)
Lemma testSuiteChild_fold (children : list xml.Node) (v : TestSuite.t) :
  let v' := fold_left xml.testSuiteChild children v in
  TestSuite.Name v' = TestSuite.Name v
  /\ TestSuite.Time v' = TestSuite.Time v
  /\ TestSuite.Timestamp v' = TestSuite.Timestamp v
  /\ TestSuite.TestCases v'
     = (TestSuite.TestCases v
          ++ map caseOfElement (elementsNamed "testcase" children))%list.
Proof.
  revert v; induction children as [|n children IH]; intros v.
  { cbn. now rewrite List.app_nil_r. }
  cbn [fold_left elementsNamed].
  destruct (IH (xml.testSuiteChild v n)) as (-> & -> & -> & ->).
  destruct n as [name attrs kids|text], v as [nm ts fs es sk tm stamp cases];
    cbn [xml.testSuiteChild]; [|auto].
  destruct (name =? "testcase"); cbn; [|auto].
  now rewrite <- List.app_assoc.
Qed.

Lemma unmarshalTestSuite_ok (q : string -> string) (attrs : list xml.Attr)
  (children : list xml.Node) (suite : TestSuite.t) :
  xml.unmarshalTestSuite q attrs children = Ok suite ->
  suiteOf suite (attrs, children).
Proof.
  unfold xml.unmarshalTestSuite, suiteOf.
  destruct (xml.testSuiteAttrs q _ attrs) as [v|e] eqn:Hattrs;
    [|discriminate].
  intros [= <-].
  destruct (testSuiteAttrs_ok q attrs _ v Hattrs) as (Hn & Ht & Hs & Hc).
  destruct (testSuiteChild_fold children v) as (-> & -> & -> & ->).
  cbn [fst snd]. now rewrite Hn, Ht, Hs, Hc.
Qed.

Lemma testSuitesChildren_ok (q : string -> string)
  (children : list xml.Node) (suites suites' : list TestSuite.t) :
  xml.testSuitesChildren q suites children = Ok suites' ->
  exists parsed,
    suites' = (suites ++ parsed)%list
    /\ Forall2 suiteOf parsed (elementsNamed "testsuite" children).
Proof.
  revert suites; induction children as [|n children IH]; intros suites;
    cbn [xml.testSuitesChildren elementsNamed].
  { intros [= <-]. exists []. now rewrite List.app_nil_r. }
  destruct n as [name attrs kids|text]; [|apply IH].
  destruct (name =? "testsuite"); [|apply IH].
  destruct (xml.unmarshalTestSuite q attrs kids) as [suite|e] eqn:Hsuite;
    [|discriminate].
  intros Hrest. destruct (IH _ Hrest) as (parsed & -> & Hall).
  exists (suite :: parsed). rewrite <- List.app_assoc. split; [reflexivity|].
  constructor; [now apply unmarshalTestSuite_ok in Hsuite | exact Hall].
Qed.

Lemma unmarshalRoot_ok (q : string -> string) (attrs : list xml.Attr)
  (children : list xml.Node) (testsuites : TestSuites.t) :
  xml.unmarshalRoot q (xml.Element "testsuites" attrs children)
  = Ok testsuites ->
  TestSuites.XMLName testsuites = "testsuites"
  /\ Forall2 suiteOf (TestSuites.TestSuites testsuites)
       (elementsNamed "testsuite" children).
Proof.
  cbn [xml.unmarshalRoot String.eqb Ascii.eqb Bool.eqb].
  destruct (xml.testSuitesChildren q [] children) as [suites|e] eqn:Hsuites;
    [|discriminate].
  intros [= <-]. split; [reflexivity|].
  now destruct (testSuitesChildren_ok q children [] suites Hsuites)
    as (parsed & -> & Hall).
Qed.

End XmlFacts.

Module CountFacts.









End CountFacts.

(** X16: the status of the record of a [testcase] element follows the
    elements under it: [fail] with a [failure] element, else [error] with
    an [error] element, else [skip] with a [skipped] element, else [pass];
    the name and the classname are its last attributes of these names. *)
Theorem testcase_element_status (r : Reporter.t) (suite : TestSuite.t)
  (attrs : list xml.Attr) (children : list xml.Node) :
  let record := caseRecord r suite (caseOfElement (attrs, children)) in
  TestcaseRequest.Status record
  = (if hasElement "failure" children then "fail"
     else if hasElement "error" children then "error"
          else if hasElement "skipped" children then "skip" else "pass")
  /\ TestcaseRequest.TestcaseName record = attrOr EmptyString "name" attrs
  /\ TestcaseRequest.TestcaseClassname record
     = attrOr EmptyString "classname" attrs.
Proof.
  unfold caseOfElement, xml.unmarshalTestCase. cbn [fst snd].
  set (zero := TestCase.mk _ _ _ _ _ _).
  destruct (XmlFacts.testCaseAttr_fold attrs zero)
    as (Hname & Hclass & _ & Hf & He & Hs).
  destruct (XmlFacts.testCaseChild_fold children
              (fold_left xml.testCaseAttr attrs zero))
    as (Hname' & Hclass' & Hf' & He' & Hs').
  rewrite Hf in Hf'. rewrite He in He'. rewrite Hs in Hs'.
  cbn in Hf', He', Hs'.
  set (tc := fold_left xml.testCaseChild children _) in *.
  unfold caseRecord, statusOutput.
  rewrite <- Hf', <- He', <- Hs'.
  destruct (TestCase.Failure tc), (TestCase.Error tc), (TestCase.Skipped tc);
    cbn; rewrite ?Hname', ?Hclass', ?Hname, ?Hclass; auto.
Qed.

(** X17: for a [testcase] element with one [failure] element and the
    session given, the output of the record is the last [message] attribute
    of that element after [Failure: ], a line feed, and its character
    data. *)
Theorem testcase_element_failure_output (r : Reporter.t)
  (suite : TestSuite.t) (attrs fattrs : list xml.Attr)
  (children fchildren : list xml.Node) :
  elementsNamed "failure" children = [(fattrs, fchildren)] ->
  let record := caseRecord r suite (caseOfElement (attrs, children)) in
  TestcaseRequest.Status record = "fail"
  /\ TestcaseRequest.Output record
     = "Failure: " ++ attrOr EmptyString "message" fattrs ++ LF
       ++ xml.charData fchildren.
Proof.
  intros Hone. unfold caseOfElement, xml.unmarshalTestCase. cbn [fst snd].
  set (zero := TestCase.mk _ _ _ _ _ _).
  assert (Hf : TestCase.Failure (fold_left xml.testCaseAttr attrs zero) = None)
    by now destruct (XmlFacts.testCaseAttr_fold attrs zero)
        as (_ & _ & _ & -> & _).
  pose proof (XmlFacts.testCaseChild_failure children _ fattrs fchildren
                Hf Hone) as Hfailure.
  unfold caseRecord, statusOutput. rewrite Hfailure. now cbn.
Qed.

Lemma testcase_element_failure_output_witness :
  TestcaseRequest.Output
    (caseRecord Fixture.resolved
       (TestSuite.mk "pkg" 0 0 0 0 EmptyString EmptyString [])
       (caseOfElement
          ([xml.mkAttr "name" "TestB"],
           [xml.CharData " ";
            xml.Element "failure" [xml.mkAttr "message" "assert failed"]
              [xml.CharData "got 1 want 2"];
            xml.Element "system-out" [] [xml.CharData "log"]])))
  = "Failure: assert failed" ++ LF ++ "got 1 want 2".
Proof.
  apply (testcase_element_failure_output Fixture.resolved
           (TestSuite.mk "pkg" 0 0 0 0 EmptyString EmptyString [])
           [xml.mkAttr "name" "TestB"]
           [xml.mkAttr "message" "assert failed"]
           [xml.CharData " ";
            xml.Element "failure" [xml.mkAttr "message" "assert failed"]
              [xml.CharData "got 1 want 2"];
            xml.Element "system-out" [] [xml.CharData "log"]]
           [xml.CharData "got 1 want 2"] eq_refl).
Defined.

(** X18: a parsed report has one suite per [testsuite] element under the
    root, in order, each with the last [name], [time] and [timestamp]
    attributes of its element and one case per [testcase] element under
    it, in order; cases of suites nested deeper are not in the report, so
    the number of records is the number of [testcase] elements under the
    [testsuite] elements under the root. *)
Theorem Unmarshal_document_order (env : Env) (xmlData : string)
  (attrs : list xml.Attr) (children : list xml.Node)
  (testsuites : TestSuites.t) :
  xmlRead env xmlData = Ok (xml.Element "testsuites" attrs children) ->
  Unmarshal env xmlData = Ok testsuites ->
  Forall2 suiteOf (TestSuites.TestSuites testsuites)
    (elementsNamed "testsuite" children)
  /\ caseCount testsuites = caseElements children
  /\ forall r, List.length (buildTestcases r testsuites)
              = caseElements children.
Proof.
  intros Hread. unfold Unmarshal. rewrite Hread. intros Hroot.
  destruct (XmlFacts.unmarshalRoot_ok _ _ _ _ Hroot) as [_ Hall].
  assert (Hcount : caseCount testsuites = caseElements children).
  { unfold caseCount, caseElements. f_equal.
    induction Hall as [|suite element suites elements (_ & _ & _ & Hcases) _ IH];
      [reflexivity|].
    cbn [map]. rewrite IH, Hcases. now rewrite length_map. }
  split; [exact Hall|]. split; [exact Hcount|].
  intros r. now rewrite NormalizerFacts.buildTestcases_length.
Qed.

Lemma Unmarshal_document_order_witness :
  exists testsuites,
    Unmarshal Fixture.accepting Sample.malformedTimeXML = Ok testsuites
    /\ caseCount testsuites = 1.
Proof.
  assert (Hparse :
            exists testsuites,
              Unmarshal Fixture.accepting Sample.malformedTimeXML
              = Ok testsuites) by (eexists; reflexivity).
  destruct Hparse as (testsuites & Hparse).
  exists testsuites. split; [exact Hparse|].
  exact (proj1 (proj2 (Unmarshal_document_order Fixture.accepting
                         Sample.malformedTimeXML [] _ testsuites
                         eq_refl Hparse))).
Defined.

(** X19: a document whose first element is not [testsuites], such as a
    report with a single [testsuite] as its root, is refused with an error
    that names both elements; [run] returns it under the label
    [parse XML] after the session request and the read, and submits
    nothing. *)
Theorem Unmarshal_other_root (env : Env) (xmlData name : string)
  (attrs : list xml.Attr) (children : list xml.Node) :
  xmlRead env xmlData = Ok (xml.Element name attrs children) ->
  name <> "testsuites" ->
  Unmarshal env xmlData
  = Err ("expected element type <testsuites> but have <" ++ name ++ ">")
  /\ forall c t sessionBaggage r' t1,
       parseBaggage env c = Ok sessionBaggage ->
       createSession env (reporterOf c sessionBaggage) t = ((r', None), t1) ->
       inputAnswer env (xmlFile c) t1 = Ok xmlData ->
       run env c t
       = (Some ("parse XML: expected element type <testsuites> but have <"
                ++ name ++ ">"),
          (t1 ++ [readEvent (xmlFile c)])%list).
Proof.
  intros Hread Hname.
  assert (Hparse : Unmarshal env xmlData
                   = Err ("expected element type <testsuites> but have <"
                          ++ name ++ ">")).
  { unfold Unmarshal. rewrite Hread. cbn [xml.unmarshalRoot].
    apply String.eqb_neq in Hname. now rewrite Hname. }
  split; [exact Hparse|].
  intros c t sessionBaggage r' t1 Hbag Hcreate Hinput.
  rewrite PipelineFacts.run_stages, Hbag, Hcreate. cbv zeta.
  now rewrite Hinput, Hparse.
Qed.

Lemma Unmarshal_other_root_witness :
  run Fixture.otherRoot (Sample.flags "report.xml") []
  = (Some "parse XML: expected element type <testsuites> but have <testsuite>",
     [EvDo (sessionHttpRequest Fixture.reporter "{session}");
      createdLine "s-1"; EvReadFile "report.xml"]).
Proof.
  apply (proj2 (Unmarshal_other_root Fixture.otherRoot
                  "<testsuite name='pkg'/>" "testsuite"
                  [xml.mkAttr "name" "pkg"] [] eq_refl
                  ltac:(discriminate))
           (Sample.flags "report.xml") [] None Fixture.resolved
           [EvDo (sessionHttpRequest Fixture.reporter "{session}");
            createdLine "s-1"]);
    reflexivity.
Defined.



Module IgnoreFacts.

Lemma testSuiteAttr_ignored (q : string -> string) (v : TestSuite.t)
  (a : xml.Attr) :
  suiteField a = false -> xml.testSuiteAttr q v a = Ok v.
Proof.
  destruct a as [name value], v as [nm ts fs es sk tm stamp cases].
  unfold suiteField, isCount, xml.testSuiteAttr.
  cbn [xml.AttrName xml.AttrValue].
  destruct (name =? "name"), (name =? "tests"), (name =? "failures"),
    (name =? "errors"), (name =? "skipped"), (name =? "time"),
    (name =? "timestamp"); cbn; try discriminate; reflexivity.
Qed.

Lemma testSuiteAttrs_filter (q : string -> string) (attrs : list xml.Attr)
  (v : TestSuite.t) :
  xml.testSuiteAttrs q v (filter suiteField attrs)
  = xml.testSuiteAttrs q v attrs.
Proof.
  revert v; induction attrs as [|a attrs IH]; intros v; [reflexivity|].
  cbn [filter]. destruct (suiteField a) eqn:E; cbn [xml.testSuiteAttrs].
  - destruct (xml.testSuiteAttr q v a); [apply IH | reflexivity].
  - rewrite (testSuiteAttr_ignored q v a E). apply IH.
Qed.

Lemma testSuitesChildren_prune (q : string -> string)
  (children : list xml.Node) (suites : list TestSuite.t) :
  xml.testSuitesChildren q suites
    (map pruneSuite (filter (isElement "testsuite") children))
  = xml.testSuitesChildren q suites children.
Proof.
  revert suites; induction children as [|n children IH]; intros suites;
    [reflexivity|].
  cbn [filter]. destruct n as [name attrs kids|text];
    cbn [isElement xml.testSuitesChildren]; [|apply IH].
  destruct (name =? "testsuite") eqn:E; [|apply IH].
  cbn [map pruneSuite xml.testSuitesChildren]. rewrite E.
  unfold xml.unmarshalTestSuite. rewrite testSuiteAttrs_filter.
  destruct (xml.testSuiteAttrs q _ attrs); [apply IH | reflexivity].
Qed.

End IgnoreFacts.

(** X21: what the structs have no field for does not change the parse:
    the attributes of the root, the children of the root that are no
    [testsuite] element (nested text and other elements) and the
    attributes of a [testsuite] other than name, the four counts, time and
    timestamp can be dropped from the document without changing the report
    or the error. *)
Theorem unmarshalRoot_ignores_unknown (q : string -> string)
  (root : xml.Node) :
  xml.unmarshalRoot q (pruneRoot root) = xml.unmarshalRoot q root.
Proof.
  destruct root as [name attrs children|text]; [|reflexivity].
  cbn [pruneRoot xml.unmarshalRoot].
  now rewrite IgnoreFacts.testSuitesChildren_prune.
Qed.

(** X22: the body of the first request of a run is the marshalled session
    request made of the flags: the id and the labels as given (the labels
    split, trimmed and read as keys and values), the description or its
    default, and the decoded baggage. *)
Theorem run_session_request_of_flags (env : Env) (c : Flags)
  (t : list event) :
  exists new,
    snd (run env c t) = (t ++ new)%list
    /\ forall first rest, requests new = first :: rest ->
         exists sessionBaggage,
           parseBaggage env c = Ok sessionBaggage
           /\ marshalSession env (sessionRequestOf c sessionBaggage)
              = Ok (Body first).
Proof.
  destruct (TraceFacts.run_requests env c t) as (new & Hnew & Hreqs).
  exists new. split; [exact Hnew|]. intros first rest Hfirst.
  destruct Hreqs as [[Hnone _]|(bag & body & Hbag & Hbody & Hreqs)];
    [congruence|].
  exists bag. split; [exact Hbag|].
  assert (Hreq : sessionRequest (reporterOf c bag) = sessionRequestOf c bag).
  { unfold sessionRequest, sessionRequestOf, reporterOf, NewReporter.
    cbn [SessionRequest.Description SessionRequest.Id SessionRequest.Labels
           SessionRequest.Baggage_ Reporter.sessionId
           Reporter.sessionDescription Reporter.sessionLabels
           Reporter.sessionBaggage].
    rewrite LabelFacts.parseLabels_refines.
    now destruct (sessionDescriptionFlag c =? EmptyString). }
  rewrite <- Hreq.
  destruct Hreqs as [[Hone _]|(id & batch & Htwo & _)].
  - rewrite Hone in Hfirst. now injection Hfirst as <- _.
  - rewrite Htwo in Hfirst. now injection Hfirst as <- _.
Qed.

(** * The batch, the session request, the stages and the counts, in full *)

(** C1: the loops of [submitResults] build one record per case: as many
    records as the report has cases, in the order of the suites and, within
    a suite, of its cases; and [submitResults] uses that list: with a case
    it marshals the records in document order, fails when they cannot be
    marshalled, and else sends them as the body of its one request. *)
Theorem buildTestcases_one_per_case (r : Reporter.t)
  (testsuites : TestSuites.t) :
  List.length (buildTestcases r testsuites) = caseCount testsuites
  /\ buildTestcases r testsuites = documentOrder r testsuites
  /\ map (fun record =>
            (TestcaseRequest.Testsuite record,
             TestcaseRequest.TestcaseName record))
       (buildTestcases r testsuites)
     = flat_map
         (fun suite =>
            map (fun tc => (TestSuite.Name suite, TestCase.Name tc))
              (TestSuite.TestCases suite))
         (TestSuites.TestSuites testsuites)
  /\ (forall env t,
        exists new,
          snd (submitResults env r testsuites t) = (t ++ new)%list
          /\ forall req, In (EvDo req) new ->
               marshalTestcases env
                 {| TestcasesRequest.Testcases := documentOrder r testsuites |}
               = Ok (Body req))
  /\ (forall env t e,
        caseCount testsuites <> 0 ->
        marshalTestcases env
          {| TestcasesRequest.Testcases := documentOrder r testsuites |}
        = Err e ->
        submitResults env r testsuites t
        = (Some ("marshal testcases request: " ++ e), t))
  /\ (forall env t body,
        caseCount testsuites <> 0 ->
        marshalTestcases env
          {| TestcasesRequest.Testcases := documentOrder r testsuites |}
        = Ok body ->
        checkURL env (testcasesURL r) = None ->
        Body (testcasesHttpRequest r body) = body
        /\ URL (testcasesHttpRequest r body) = testcasesURL r
        /\ exists rest,
             snd (submitResults env r testsuites t)
             = (t ++ EvDo (testcasesHttpRequest r body) :: rest)%list
             /\ requests rest = []).
Proof.
  destruct (BatchFacts.records_one_per_case r testsuites)
    as (Hlength & Horder & Hnames & Hsent).
  split; [exact Hlength|]. split; [exact Horder|].
  split; [exact Hnames|]. split; [exact Hsent|].
  assert (Hsome : caseCount testsuites <> 0 ->
                  buildTestcases r testsuites <> []).
  { intros Hcount Hnil. apply Hcount. now rewrite <- Hlength, Hnil. }
  rewrite <- Horder. split.
  - intros env t e Hcount Hbody.
    exact (proj1 (RunFacts.submitResults_unsent env r testsuites t
                    (Hsome Hcount)) e Hbody).
  - intros env t body Hcount Hbody Hurl.
    split; [reflexivity|]. split; [reflexivity|].
    rewrite (RunFacts.submitResults_sent env r testsuites t body
               (Hsome Hcount) Hbody Hurl).
    cbv zeta.
    destruct (clientDo env t (testcasesHttpRequest r body)) as [resp|e];
      [|now exists []].
    destruct (StatusCode resp =? StatusCreated)%Z; eexists;
      (split; [reflexivity|]); reflexivity.
Qed.

Lemma buildTestcases_one_per_case_witness :
  exists rest,
    snd (submitResults Fixture.accepting Fixture.resolved Fixture.oneCase [])
    = EvDo (testcasesHttpRequest Fixture.resolved "{testcases}") :: rest
    /\ requests rest = [].
Proof.
  assert (Hcount : caseCount Fixture.oneCase <> 0) by discriminate.
  destruct (buildTestcases_one_per_case Fixture.resolved Fixture.oneCase)
    as (_ & _ & _ & _ & _ & H).
  destruct (H Fixture.accepting [] "{testcases}" Hcount eq_refl eq_refl)
    as (_ & _ & rest & Hrest & Hnone).
  now exists rest.
Defined.

(** C9: the session request of [createSession] carries the fixed
    description when the caller gave none and the caller's description
    otherwise, the other fields as given; [createSession] marshals that
    request, fails without sending when it cannot be marshalled, and else,
    the address accepted, sends it as the body of its one request. *)
Theorem createSession_description (env : Env) (r : Reporter.t)
  (t : list event) :
  SessionRequest.Description (sessionRequest r)
  = (if Reporter.sessionDescription r =? EmptyString
     then "JUnit XML test report" else Reporter.sessionDescription r)
  /\ SessionRequest.Id (sessionRequest r) = Reporter.sessionId r
  /\ SessionRequest.Labels (sessionRequest r) = Reporter.sessionLabels r
  /\ SessionRequest.Baggage_ (sessionRequest r) = Reporter.sessionBaggage r
  /\ (exists new,
        snd (createSession env r t) = (t ++ new)%list
        /\ forall req, In (EvDo req) new ->
             URL req = sessionsURL r
             /\ marshalSession env (sessionRequest r) = Ok (Body req))
  /\ (forall e,
        marshalSession env (sessionRequest r) = Err e ->
        createSession env r t
        = ((r, Some ("marshal session request: " ++ e)), t))
  /\ (forall body,
        marshalSession env (sessionRequest r) = Ok body ->
        checkURL env (sessionsURL r) = None ->
        Body (sessionHttpRequest r body) = body
        /\ URL (sessionHttpRequest r body) = sessionsURL r
        /\ exists rest,
             snd (createSession env r t)
             = (t ++ EvDo (sessionHttpRequest r body) :: rest)%list
             /\ requests rest = []).
Proof.
  destruct (SessionFacts.description_marshalled env r t)
    as (Hdescription & Hid & Hlabels & Hbaggage & Hsent).
  split; [exact Hdescription|]. split; [exact Hid|].
  split; [exact Hlabels|]. split; [exact Hbaggage|].
  split; [exact Hsent|]. split.
  - intros e Hbody.
    exact (proj1 (PipelineFacts.createSession_unsent env r t) e Hbody).
  - intros body Hbody Hurl.
    split; [reflexivity|]. split; [reflexivity|].
    rewrite (PipelineFacts.createSession_sent env r t body Hbody Hurl).
    cbv zeta.
    destruct (clientDo env t (sessionHttpRequest r body)) as [resp|e];
      [|now exists []].
    destruct (StatusCode resp =? StatusCreated)%Z; [|now exists []].
    destruct (decodeSession env (RespBody resp)) as [sessionResp|e];
      [|now exists []].
    eexists. split; reflexivity.
Qed.

Lemma createSession_description_witness :
  SessionRequest.Description (sessionRequest Fixture.reporter)
  = "JUnit XML test report"
  /\ exists rest,
       snd (createSession Fixture.rejecting Fixture.reporter [])
       = EvDo (sessionHttpRequest Fixture.reporter "{session}") :: rest
       /\ requests rest = [].
Proof.
  destruct (createSession_description Fixture.rejecting Fixture.reporter [])
    as (Hdescription & _ & _ & _ & _ & _ & H).
  split; [exact Hdescription|].
  destruct (H "{session}" eq_refl eq_refl) as (_ & _ & rest & Hrest & Hnone).
  now exists rest.
Defined.

(** C3, as the code has it: the first thing a run does to the world is the
    session request; the input is read, and then parsed, only in a run
    whose [createSession] returned nil, as the third thing after the
    session request and its log line, and never otherwise; so an input
    failure or a parse failure ends the run after the session request and
    before any submission, and a failed session ends it with the session
    error and no read. *)
Theorem run_session_first (env : Env) (c : Flags) (t : list event) :
  (exists new,
      snd (run env c t) = (t ++ new)%list
      /\ (new = []
          \/ exists req rest,
               new = EvDo req :: rest
               /\ Method req = "POST"
               /\ URL req
                  = strings.TrimSuffix (ingressEndpoint c) "/"
                    ++ "/api/v1/ingress/sessions"))
  /\ (forall sessionBaggage r' t1,
        parseBaggage env c = Ok sessionBaggage ->
        createSession env (reporterOf c sessionBaggage) t = ((r', None), t1) ->
        let t2 := (t1 ++ [readEvent (xmlFile c)])%list in
        exists req id,
          t1 = (t ++ [EvDo req; createdLine id])%list
          /\ URL req = sessionsURL (reporterOf c sessionBaggage)
          /\ requests t2 = (requests t ++ [req])%list
          /\ (forall e,
                inputAnswer env (xmlFile c) t1 = Err e ->
                run env c t = (Some (inputLabel (xmlFile c) ++ e), t2))
          /\ (forall xmlData e,
                inputAnswer env (xmlFile c) t1 = Ok xmlData ->
                Unmarshal env xmlData = Err e ->
                run env c t = (Some ("parse XML: " ++ e), t2)))
  /\ (exists new,
        snd (run env c t) = (t ++ new)%list
        /\ (inputReads new = 0
            \/ exists sessionBaggage r' req id sub,
                 parseBaggage env c = Ok sessionBaggage
                 /\ createSession env (reporterOf c sessionBaggage) t
                    = ((r', None), (t ++ [EvDo req; createdLine id])%list)
                 /\ URL req = sessionsURL (reporterOf c sessionBaggage)
                 /\ new
                    = ([EvDo req; createdLine id; readEvent (xmlFile c)]
                         ++ sub)%list
                 /\ inputReads sub = 0))
  /\ (forall sessionBaggage r' e t1,
        parseBaggage env c = Ok sessionBaggage ->
        createSession env (reporterOf c sessionBaggage) t
        = ((r', Some e), t1) ->
        run env c t = (Some ("create session: " ++ e), t1)
        /\ inputReads t1 = inputReads t)
  /\ (forall e,
        parseBaggage env c = Err e ->
        run env c t = (Some ("parse session baggage: " ++ e), t)).
Proof.
  destruct (StageFacts.session_first env c t) as [Hfirst Hfailures].
  split; [exact Hfirst|]. split; [exact Hfailures|].
  assert (Hfailed : forall sessionBaggage r' e t1,
             createSession env (reporterOf c sessionBaggage) t
             = ((r', Some e), t1) ->
             exists new,
               t1 = (t ++ new)%list /\ inputReads new = 0).
  { intros bag r' e t1 Hcreate.
    destruct (TraceFacts.createSession_failed_shape _ _ _ _ _ _ Hcreate)
      as [->|(body & _ & ->)].
    - exists []. now rewrite List.app_nil_r.
    - eexists. split; reflexivity. }
  split; [|split].
  - rewrite PipelineFacts.run_stages.
    destruct (parseBaggage env c) as [sessionBaggage|e].
    2:{ exists []. rewrite List.app_nil_r. auto. }
    destruct (createSession env (reporterOf c sessionBaggage) t)
      as [[r' [e|]] t1] eqn:Hcreate.
    { destruct (Hfailed _ _ _ _ Hcreate) as (new & -> & Hnone).
      exists new. auto. }
    destruct (PipelineFacts.createSession_success _ _ _ _ _ Hcreate)
      as (body & resp & sessionResp & _ & _ & _ & _ & _ & Hr' & Ht1).
    assert (Hread : forall sub (out : option string * list event),
               snd out = ((t1 ++ [readEvent (xmlFile c)]) ++ sub)%list ->
               inputReads sub = 0 ->
               exists new,
                 snd out = (t ++ new)%list
                 /\ (inputReads new = 0
                     \/ exists bag r'' req id sub',
                          Ok sessionBaggage = Ok bag
                          /\ createSession env (reporterOf c bag) t
                             = ((r'', None),
                                (t ++ [EvDo req; createdLine id])%list)
                          /\ URL req = sessionsURL (reporterOf c bag)
                          /\ new
                             = ([EvDo req; createdLine id;
                                 readEvent (xmlFile c)] ++ sub')%list
                          /\ inputReads sub' = 0)).
    { intros sub out Hout Hnone. rewrite Ht1 in Hout.
      rewrite <- !List.app_assoc in Hout.
      eexists. split; [exact Hout|]. right.
      exists sessionBaggage, r',
        (sessionHttpRequest (reporterOf c sessionBaggage) body),
        (SessionResponse.Id sessionResp), sub.
      split; [reflexivity|]. split; [now rewrite Hcreate, Ht1|].
      split; [reflexivity|]. split; [reflexivity | exact Hnone]. }
    cbv zeta.
    destruct (inputAnswer env (xmlFile c) t1) as [xmlData|e].
    2:{ apply (Hread []); [now rewrite List.app_nil_r | reflexivity]. }
    destruct (Unmarshal env xmlData) as [testsuites|e].
    2:{ apply (Hread []); [now rewrite List.app_nil_r | reflexivity]. }
    destruct (RunFacts.submitResults_shape env r' testsuites
                (t1 ++ [readEvent (xmlFile c)])%list)
      as (sub & Hsub & Hcases).
    destruct (submitResults env r' testsuites
                (t1 ++ [readEvent (xmlFile c)])%list) as [failed t3].
    cbn [snd] in Hsub. subst t3.
    apply (Hread sub); [reflexivity|].
    destruct Hcases as [->|[->|(batch & _ & [->| ->])]]; reflexivity.
  - intros sessionBaggage r' e t1 Hbag Hcreate.
    split; [exact (PipelineFacts.run_session_failed env c t t1
                     sessionBaggage r' e Hbag Hcreate)|].
    destruct (Hfailed _ _ _ _ Hcreate) as (new & -> & Hnone).
    rewrite RunFacts.inputReads_app. lia.
  - intros e Hbag. now rewrite PipelineFacts.run_stages, Hbag.
Qed.

Lemma run_session_first_witness :
  run Sample.missingFile (Sample.flags "missing.xml") []
  = (Some "read file missing.xml: open missing.xml: no such file or directory",
     [EvDo Sample.sessionPost; createdLine "s-1"; EvReadFile "missing.xml"])
  /\ run Fixture.rejecting (Sample.flags "missing.xml") []
     = (Some "create session: create session failed: status=500 body=boom",
        [EvDo Sample.sessionPost])
  /\ inputReads [EvDo Sample.sessionPost] = inputReads [].
Proof.
  destruct (run_session_first Sample.missingFile (Sample.flags "missing.xml")
              []) as (_ & Hfailures & _).
  destruct (Hfailures None
              (setSessionId (reporterOf (Sample.flags "missing.xml") None)
                 "s-1")
              [EvDo Sample.sessionPost; createdLine "s-1"] eq_refl eq_refl)
    as (req & id & _ & _ & _ & H & _).
  split; [exact (H "open missing.xml: no such file or directory" eq_refl)|].
  destruct (run_session_first Fixture.rejecting (Sample.flags "missing.xml")
              []) as (_ & _ & _ & Hsession & _).
  exact (Hsession None (reporterOf (Sample.flags "missing.xml") None)
           "create session failed: status=500 body=boom"
           [EvDo Sample.sessionPost] eq_refl eq_refl).
Defined.


